(** * Liberapay state chain: the policy steps of [liberapay/utils/state_chain.py]

    A shallow embedding of the steps of the request-processing chain and the
    properties the specification states about them. Python text is a string
    of characters. The request target, which the code splits and indexes, is
    a byte string, a type of its own ([Py.bytes]): its items are numbers.
    Header names and values are byte strings too; the steps only compare
    them with other byte strings, join them and pass them through codecs,
    so they are kept as the strings of their 8-bit characters, and the
    codecs are explicit functions. *)

From Stdlib Require Import ZArith Bool Ascii String Lia.
From stdpp Require Import gmap strings list fin_maps.

Open Scope Z_scope.

(** ** Python string operations used by the steps *)
Module Py.

Definition str := string.

(** A byte string ([bytes]), given by its octets. *)
Record bytes := Bytes { octets : string }.

(** The values that line 50 of the source compares: indexing a text yields
    a text of one character, indexing a byte string yields a number. *)
Inductive value :=
| Int (n : nat)
| Str (s : str).

(** [x == y]: numbers and texts compare among themselves, and a number is
    never equal to a text. *)
Definition eq (x y : value) : bool :=
  match x, y with
  | Int a, Int b => Nat.eqb a b
  | Str a, Str b => String.eqb a b
  | _, _ => false
  end.

(** [s.startswith(p)] *)
Definition startswith (s p : string) : bool := String.prefix p s.

(** [s[:n]] for a non-negative [n] *)
Definition take (n : nat) (s : string) : string := String.substring 0 n s.

(** [s[:-n]] for a positive [n]: everything but the last [n] characters,
    the empty string when [s] is shorter. *)
Definition drop_last (n : nat) (s : string) : string :=
  String.substring 0 (String.length s - n) s.

(** [s[-n:]] for a positive [n] no longer than [s] *)
Definition take_last (n : nat) (s : string) : string :=
  String.substring (String.length s - n) n s.

(** [s.endswith(p)] *)
Definition endswith (s p : string) : bool :=
  (String.length p <=? String.length s)%nat && String.eqb (take_last (String.length p) s) p.

(** The last character of a string, when it has one. *)
Definition last_char (s : string) : option ascii :=
  match String.length s with
  | O => None
  | S n => String.get n s
  end.

(** [s[-1]] for a text and [b[-1]] for a byte string, [None] standing for
    IndexError. *)
Definition str_last (s : str) : option value :=
  c ← last_char s; Some (Str (String c EmptyString)).
Definition bytes_last (b : bytes) : option value :=
  c ← last_char (octets b); Some (Int (nat_of_ascii c)).

(** [b[:-1]] for a byte string *)
Definition bytes_drop_last (b : bytes) : bytes := Bytes (drop_last 1 (octets b)).

(** [sub in s] for text *)
Definition contains (sub s : string) : bool :=
  match String.index 0 sub s with Some _ => true | None => false end.

Definition lower_char (c : ascii) : ascii :=
  let n := nat_of_ascii c in
  if ((65 <=? n) && (n <=? 90))%nat then ascii_of_nat (n + 32) else c.

(** [s.lower()] on the ASCII range *)
Fixpoint lower (s : string) : string :=
  match s with
  | EmptyString => EmptyString
  | String c s' => String (lower_char c) (lower s')
  end.

Definition is_ascii_char (c : ascii) : bool := (nat_of_ascii c <? 128)%nat.

Fixpoint is_ascii (s : string) : bool :=
  match s with
  | EmptyString => true
  | String c s' => is_ascii_char c && is_ascii s'
  end.

(** [b.decode('ascii')] and [s.encode('ascii')]: the identity on 7-bit
    data, [None] (UnicodeDecodeError, UnicodeEncodeError) otherwise. *)
Definition decode_ascii (b : string) : option str :=
  if is_ascii b then Some b else None.
Definition encode_ascii (s : str) : option string :=
  if is_ascii s then Some s else None.

(** Truth value of a text or byte string *)
Definition truthy (s : string) : bool :=
  match s with EmptyString => false | _ => true end.

End Py.

(** ** The header multimap

  Modelled from the spec: headers are an ordered multimap of byte-string
  names to byte-string values with add/set/pop mutation; the class itself
  (pando's [Mapping]) is not part of the sources. A name maps to the
  non-empty list of its values; indexing and [get] read the last value,
  assignment replaces all values by one, [add] appends, and [pop] removes
  the last value, dropping the name once no value is left. Names are kept
  in their normalised spelling. *)
Module Mapping.

Abbreviation t := (gmap string (list string)).

(** [m.all(k)] *)
Definition all (k : string) (m : t) : list string := default [] (m !! k).

(** [m[k]]; [None] is the failure for a missing name. *)
Definition getitem (k : string) (m : t) : option string :=
  match m !! k with
  | Some vs => last vs
  | None => None
  end.

(** [m.get(k, d)] *)
Definition get (k d : string) (m : t) : string :=
  match m !! k with
  | Some vs => default d (last vs)
  | None => d
  end.

(** [m[k] = v] *)
Definition setitem (k v : string) (m : t) : t := <[k := [v]]> m.

(** [m.add(k, v)] *)
Definition add (k v : string) (m : t) : t :=
  match m !! k with
  | Some vs => <[k := vs ++ [v]]> m
  | None => <[k := [v]]> m
  end.

(** [m.pop(k)]: the last value together with the map without it. *)
Definition pop (k : string) (m : t) : option (string * t) :=
  match m !! k with
  | Some vs =>
      match last vs with
      | Some v =>
          let vs' := removelast vs in
          Some (v, match vs' with [] => delete k m | _ => <[k := vs']> m end)
      | None => None
      end
  | None => None
  end.

(** [k in m] *)
Definition contains (k : string) (m : t) : bool :=
  match m !! k with Some _ => true | None => false end.

End Mapping.

(** ** Objects of the chain *)

(** A header object: the multimap of fields and the cookie jar attached to
    it ([headers.cookie]), a dictionary from cookie names to cookies. *)
Module Headers.

Record t := mk { fields : Mapping.t; cookie : gmap string string }.

Definition empty : t := mk ∅ ∅.

Definition map_fields (f : Mapping.t → Mapping.t) (h : t) : t :=
  mk (f (fields h)) (cookie h).

Definition getitem (k : string) (h : t) : option string := Mapping.getitem k (fields h).
Definition get (k d : string) (h : t) : string := Mapping.get k d (fields h).
Definition all (k : string) (h : t) : list string := Mapping.all k (fields h).
Definition setitem (k v : string) (h : t) : t := map_fields (Mapping.setitem k v) h.
Definition add (k v : string) (h : t) : t := map_fields (Mapping.add k v) h.

Definition pop (k : string) (h : t) : option (string * t) :=
  match Mapping.pop k (fields h) with
  | Some (v, m) => Some (v, mk m (cookie h))
  | None => None
  end.

(** [headers.cookie.update(other)]: the entries of [other] win. *)
Definition cookie_update (other : gmap string string) (h : t) : t :=
  mk (fields h) (other ∪ cookie h).

End Headers.

(** Addresses of response objects: two names denote the same object exactly
    when the addresses are equal ([exception is response]). *)
Definition loc := positive.

(** An exception that is not a response: what [isinstance] answers for the
    classes the chain tests, its text [str(e)], and its [__cause__]
    attribute, which every exception has and which is [None] unless the
    exception was raised from another one. *)
Inductive PyExn : Type :=
  mkExn (is_Timeout is_socket_error is_ConnectionError : bool)
        (text : string) (cause : Cause)
with Cause : Type :=
| NoCause                   (* [__cause__] is [None] *)
| CausedBy (e : PyExn).

Definition isinstance_Timeout (e : PyExn) : bool :=
  match e with mkExn b _ _ _ _ => b end.
Definition isinstance_socket_error (e : PyExn) : bool :=
  match e with mkExn _ b _ _ _ => b end.
Definition isinstance_ConnectionError (e : PyExn) : bool :=
  match e with mkExn _ _ b _ _ => b end.
Definition exn_str (e : PyExn) : string :=
  match e with mkExn _ _ _ s _ => s end.
Definition exn_cause (e : PyExn) : Cause :=
  match e with mkExn _ _ _ _ c => c end.

(** Values of the state bag. *)
Inductive Value : Type :=
| VNone
| VResponse (l : loc)
| VExn (e : PyExn)
| VOpaque (tag : string).

(** The state bag, a dictionary from names to values. *)
Abbreviation State := (gmap string Value).

Module Response.

Inductive class := Plain | Lazy.

(** The instance dictionary of a response. [code] and [body] are always
    set by the constructor; [headers], [lazy_body] and [whence_raised] are
    entries that can be missing ([None]); [attrs] holds the other entries
    (request, website, ...). The class is not part of the dictionary. *)
Record t := mk {
  cls : class;
  code : Z;
  body : string;
  headers : option Headers.t;
  lazy_body : option (State → string);
  whence_raised : option (option string * option Z);
  attrs : gmap string Value
}.

(** [Response()] *)
Definition new : t := mk Plain 200 "" (Some Headers.empty) None None ∅.

Definition set_code (c : Z) (r : t) : t :=
  mk (cls r) c (body r) (headers r) (lazy_body r) (whence_raised r) (attrs r).
Definition set_body (b : string) (r : t) : t :=
  mk (cls r) (code r) b (headers r) (lazy_body r) (whence_raised r) (attrs r).
Definition set_headers (h : option Headers.t) (r : t) : t :=
  mk (cls r) (code r) (body r) h (lazy_body r) (whence_raised r) (attrs r).
Definition set_lazy_body (f : option (State → string)) (r : t) : t :=
  mk (cls r) (code r) (body r) (headers r) f (whence_raised r) (attrs r).
Definition set_whence (w : option string * option Z) (r : t) : t :=
  mk (cls r) (code r) (body r) (headers r) (lazy_body r) (Some w) (attrs r).

(** [r.__dict__.update(e.__dict__)]: every entry of [e]'s dictionary is
    copied over the entry of the same name; entries [e] lacks are kept. *)
Definition dict_update (e r : t) : t :=
  mk (cls r) (code e) (body e)
     (match headers e with Some h => Some h | None => headers r end)
     (match lazy_body e with Some f => Some f | None => lazy_body r end)
     (match whence_raised e with Some w => Some w | None => whence_raised r end)
     (attrs e ∪ attrs r).

End Response.

Module Request.

Record Path := mkPath { raw : string; decoded : string }.

(** The query string: the part of the target after "?" as it was sent,
    its decoded text and the parameters parsed from it. *)
Record Querystring := mkQuerystring {
  qs_raw : string;
  qs_decoded : string;
  qs_params : gmap string (list string)
}.

(** The truth value of the query string, tested on line 78: it is true
    exactly when the target has a query, that is when the raw query is not
    empty. *)
Definition qs_truthy (q : Querystring) : bool := Py.truthy (qs_raw q).

(** The request target: a byte string ([uri_bytes]) that carries its parsed
    path and query string. *)
Record URI := mkURI {
  uri_bytes : Py.bytes;
  uri_path : Path;
  uri_querystring : Querystring
}.

(** The request line; [Line(method, uri, version)] takes three byte
    strings and parses the target. *)
Record Line := mkLine {
  method_raw : Py.bytes;
  uri : URI;
  version_raw : Py.bytes
}.

Record t := mk {
  line : Line;
  method : string;
  path : Path;
  headers : Headers.t;
  bypasses_proxy : bool;
  source : string;
  hostname : option string
}.

Definition set_hostname (h : string) (r : t) : t :=
  mk (line r) (method r) (path r) (headers r) (bypasses_proxy r) (source r) (Some h).
Definition set_headers (h : Headers.t) (r : t) : t :=
  mk (line r) (method r) (path r) h (bypasses_proxy r) (source r) (hostname r).
Definition set_line (l : Line) (r : t) : t :=
  mk l (method r) (path r) (headers r) (bypasses_proxy r) (source r) (hostname r).

End Request.

(** The site configuration read by the steps. *)
Record Website := mkWebsite {
  canonical_host : string;
  canonical_scheme : string;
  locales : gset string;
  show_tracebacks : bool
}.

(** ** Exceptions and the step monad *)

Inductive exn : Type :=
| ResponseExc (r : Response.t)      (* a response raised as an exception *)
| MissingKey (k : string)           (* failure of [m[k]] for a missing name *)
| AttributeError (a : string)
| IndexError
| AssertionError
| ValueError
| UnicodeDecodeError
| UnicodeEncodeError
| UnicodeError
| TooManyRequests
| OtherExc (e : PyExn).

Inductive outcome (A : Type) : Type :=
| Return (a : A)
| Raise (e : exn).
Arguments Return {A} a.
Arguments Raise {A} e.

(** A step acting on an object of type [S]: it leaves the object in some
    state and either returns or raises. *)
Definition step (S A : Type) : Type := S → S * outcome A.

Definition step_ret {S A} (a : A) : step S A := λ s, (s, Return a).
Definition step_bind {S A B} (m : step S A) (k : A → step S B) : step S B :=
  λ s, match m s with
       | (s', Return a) => k a s'
       | (s', Raise e) => (s', Raise e)
       end.
Definition raise {S A} (e : exn) : step S A := λ s, (s, Raise e).
Definition get_obj {S} : step S S := λ s, (s, Return s).
Definition modify {S} (f : S → S) : step S unit := λ s, (f s, Return tt).
Definition from_option {S A} (e : exn) (o : option A) : step S A :=
  match o with Some a => step_ret a | None => raise e end.
(** An outcome computed without touching the object, as a step. *)
Definition lift_outcome {S A} (o : outcome A) : step S A := λ s, (s, o).

#[global] Instance step_mret {S} : MRet (step S) := @step_ret S.
#[global] Instance step_mbind {S} : MBind (step S) := λ A B k m, step_bind m k.

(** [try: m except Response: pass] *)
Definition except_Response {S} (m : step S unit) : step S unit :=
  λ s, match m s with
       | (s', Raise (ResponseExc _)) => (s', Return tt)
       | r => r
       end.

(** The response store of one request, with the state bag. *)
Abbreviation Heap := (gmap loc Response.t).

Definition load (l : loc) : step (State * Heap) Response.t :=
  λ s, match snd s !! l with
       | Some r => (s, Return r)
       | None => (s, Raise (AttributeError "dangling"))
       end.
Definition store (l : loc) (r : Response.t) : step (State * Heap) unit :=
  modify (λ s, (fst s, <[l := r]> (snd s))).
Definition set_state (k : string) (v : Value) : step (State * Heap) unit :=
  modify (λ s, (<[k := v]> (fst s), snd s)).

(** ** The rate-limit store, an external collaborator *)

Inductive Key := KeyId (id : Z) | KeyAddr (a : string).

Record Call := mkCall { bucket : string; key : Key; signal : exn }.

Record User := mkUser { id : option Z }.

(** [user.id] when it is true, that is a number other than zero. *)
Definition truthy_id (u : User) : option Z :=
  match id u with
  | Some n => if n =? 0 then None else Some n
  | None => None
  end.

(** The dictionary returned by an exception-handling step. *)
Record Update := mkUpdate { upd_response : Response.t; upd_exception : Value }.

(** What [b.decode('idna')] gives for a byte string: the decoded name, or
    one of the two failures of the codec. Bytes outside ASCII raise
    UnicodeDecodeError; a name that is not a valid internationalized name
    (a malformed punycode label such as [xn--a], a label that is empty or
    too long) raises UnicodeError, of which UnicodeDecodeError is a
    subclass. *)
Inductive decoding :=
| Decoded (name : string)
| DecodeError       (* UnicodeDecodeError *)
| CodecError.       (* UnicodeError that is no UnicodeDecodeError *)

(** ** The collaborators of the steps

    What the steps call and the sources do not define: codecs and URL
    functions of the interpreter, the request-line parser, the constant
    [SAFE_METHODS], the refresh renderer and the rate-limit store. *)
Class Externals := {
  (** [b.decode('idna')] *)
  idna_decode : string → decoding;
  (** [s.encode('idna')], [None] on UnicodeError *)
  idna_encode : string → option string;
  (** [b.decode('ascii', 'replace')] *)
  decode_ascii_replace : string → string;
  (** [urlsplit], [None] when it raises (a ValueError), and [urlunsplit] of
      [urllib.parse], on (scheme, netloc, path, query, fragment); given a
      byte string, [urlsplit] returns byte strings *)
  urlsplit : Py.bytes → option (Py.bytes * Py.bytes * Py.bytes * Py.bytes * Py.bytes);
  urlunsplit : Py.bytes * Py.bytes * Py.bytes * Py.bytes * Py.bytes → Py.bytes;
  (** the parsing of a request target done by [Line] *)
  parse_uri : Py.bytes → Request.URI;
  (** [SAFE_METHODS] of the CSRF module *)
  SAFE_METHODS : gset string;
  (** the bytes stored in [Location] for a redirect target *)
  encode_url : string → string;
  (** [response.refresh(state, interval, url)], the renderer of the
      refresh page *)
  refresh : State → Z → string → step Response.t unit;
  (** the verdict of the rate-limit store on a call, given the calls so far *)
  over_limit : list Call → Call → bool;
  (** what the interpreter reports as the place an exception was raised *)
  whence : option string * option Z
}.

(** ** The steps *)
Section Steps.

Context `{!Externals}.

(** Modelled from the spec: [Response.error(code, msg)], which is not in
    the sources, turns the response into an error response carrying the
    message and hands back the same object. *)
Definition error (c : Z) (msg : string) (r : Response.t) : Response.t :=
  Response.set_body msg (Response.set_code c r).

Definition reject_requests_bypassing_proxy (request : Request.t)
  : step Response.t unit :=
  if Request.bypasses_proxy request
     && bool_decide (Request.raw (Request.path request) ≠ "/callbacks/health")
  then
    modify (error 403 "The request bypassed a proxy.");;
    response ← get_obj;
    raise (ResponseExc response)
  else mret tt.

(** [response.headers[k] = v] *)
Definition set_header (k v : string) : step Response.t unit :=
  response ← get_obj;
  h ← from_option (AttributeError "headers") (Response.headers response);
  modify (Response.set_headers (Some (Headers.setitem k v h))).

(** [Line(method, uri, version)] *)
Definition Line (m u v : Py.bytes) : Request.Line :=
  Request.mkLine m (parse_uri u) v.

(** Modelled from the spec: [Response.redirect(url)], which is not in the
    sources, makes the response a 302 redirect to [url] and raises it. *)
Definition redirect (url : string) : step Response.t unit :=
  modify (Response.set_code 302);;
  set_header "Location" (encode_url url);;
  response ← get_obj;
  raise (ResponseExc response).

(** Runs a step on a freshly built object and keeps its outcome. *)
Definition on_new {S T A} (new : T) (m : step T A) : step S A :=
  λ s, (s, snd (m new)).

(** Lines 40 to 43, once the Host header is read: the decoded name; the
    empty text when decoding raises UnicodeDecodeError, which line 42
    catches; any other failure of the codec is not caught and leaves the
    step. *)
Definition decode_host (raw_host : string) : outcome string :=
  match idna_decode raw_host with
  | Decoded host => Return host
  | DecodeError => Return ""
  | CodecError => Raise UnicodeError
  end.

Definition canonize (website : Website) : step Request.t unit :=
  request ← get_obj;
  raw_host ← from_option (MissingKey "Host")
                (Headers.getitem "Host" (Request.headers request));
  host ← lift_outcome (decode_host raw_host);
  modify (Request.set_hostname host);;
  if Py.startswith (Request.raw (Request.path request)) "/callbacks/" then
    c ← from_option IndexError (Py.str_last (Request.raw (Request.path request)));
    if Py.eq c (Py.Str "/") then
      let l := Request.line request in
      '(scheme, netloc, path, query, fragment) ←
         from_option ValueError (urlsplit (Request.uri_bytes (Request.uri l)));
      (* sanity check: an item of the split path against the text "/" *)
      c' ← from_option IndexError (Py.bytes_last path);
      if Py.eq c' (Py.Str "/") then
        let path := Py.bytes_drop_last path in
        let new_uri := urlunsplit (scheme, netloc, path, query, fragment) in
        modify (Request.set_line
                  (Line (Request.method_raw l) new_uri (Request.version_raw l)))
      else raise AssertionError
    else mret tt
  else
    let canonical_host := canonical_host website in
    let canonical_scheme := canonical_scheme website in
    let scheme := Headers.get "X-Forwarded-Proto" "http" (Request.headers request) in
    let bad_scheme := bool_decide (decode_ascii_replace scheme ≠ canonical_scheme) in
    bad_host ←
      (if Py.truthy canonical_host then
         if bool_decide (host = canonical_host) then mret false
         else if Py.endswith host ("." +:+ canonical_host) then
           let subdomain := Py.drop_last (String.length canonical_host + 1) host in
           if bool_decide (subdomain ∈ locales website) then
             let accept_langs := Headers.get "Accept-Language" "" (Request.headers request) in
             sub ← from_option UnicodeError (idna_encode subdomain);
             let accept_langs := sub +:+ "," +:+ accept_langs in
             modify (λ r, Request.set_headers
                            (Headers.setitem "Accept-Language" accept_langs (Request.headers r)) r);;
             mret false
           else mret true
         else mret true
       else mret false);
    if bad_scheme || bad_host then
      let url := canonical_scheme +:+ "://" +:+ (if bad_host then canonical_host else host) in
      let url :=
        if bool_decide (Request.method request ∈ SAFE_METHODS) then
          let uri := Request.uri (Request.line request) in
          let url := url +:+ Request.decoded (Request.uri_path uri) in
          if Request.qs_truthy (Request.uri_querystring uri)
          then url +:+ "?" +:+ Request.qs_decoded (Request.uri_querystring uri)
          else url
        else url +:+ "/" in
      on_new Response.new
        (set_header "Cache-Control" "public, max-age=86400";;
         redirect url)
    else mret tt.

(** [website.db.hit_rate_limit(bucket, key, signal)]: the store records the
    hit and raises the signal when the limit is exceeded. *)
Definition hit_rate_limit (b : string) (k : Key) (sig : exn) : step (list Call) unit :=
  calls ← get_obj;
  modify (λ cs, cs ++ [mkCall b k sig]);;
  if over_limit calls (mkCall b k sig) then raise sig else mret tt.

Definition enforce_rate_limits (request : Request.t) (user : User)
  : step (list Call) unit :=
  if bool_decide (Request.method request ∈ ["GET"; "HEAD"]) then mret tt
  else
    match truthy_id user with
    | Some n => hit_rate_limit "http-unsafe.user" (KeyId n) TooManyRequests
    | None =>
        hit_rate_limit "http-unsafe.ip-addr" (KeyAddr (Request.source request))
          TooManyRequests
    end.

(** Modelled from the spec: [set_whence_raised], which is not in the
    sources, snapshots where the exception was raised onto the object. *)
Definition set_whence_raised (e : Response.t) : Response.t :=
  Response.set_whence whence e.

(** Modelled from the spec: [LazyResponse.render_body(state)], which is not
    in the sources, renders the body from the lazy descriptor in the
    current state. *)
Definition render_body (state : State) (e : Response.t) : outcome Response.t :=
  match Response.lazy_body e with
  | Some f => Return (Response.set_body (f state) e)
  | None => Raise (AttributeError "lazy_body")
  end.

(** [for v in values: headers.add(k, v)] *)
Definition add_values (k : string) (values : list string) (h : Headers.t) : Headers.t :=
  foldl (λ h v, Headers.add k v h) h values.

(** [for k, values in src.items(): for v in values: dst.add(k, v)] *)
Definition add_headers (src dst : Headers.t) : Headers.t :=
  map_fold add_values dst (Headers.fields src).

Definition merge_exception_into_response (exception : Value) (response : option loc)
  : step (State * Heap) unit :=
  match response, exception with
  | Some lr, VResponse le =>
      (* clear the exception *)
      set_state "exception" VNone;;
      (* set debug info *)
      e ← load le;
      store le (set_whence_raised e);;
      (* render response if it's lazy *)
      e ← load le;
      match Response.cls e with
      | Response.Lazy =>
          s ← get_obj;
          e' ← lift_outcome (render_body (fst s) e);
          store le (Response.set_lazy_body None e')
      | Response.Plain => mret tt
      end;;
      (* there's nothing else to do if the exception is the response *)
      if bool_decide (le = lr) then mret tt
      else
        (* merge cookies *)
        e ← load le;
        r ← load lr;
        rh ← from_option (AttributeError "headers") (Response.headers r);
        eh ← from_option (AttributeError "headers") (Response.headers e);
        store lr (Response.set_headers
                    (Some (Headers.cookie_update (Headers.cookie eh) rh)) r);;
        (* merge headers *)
        store le (Response.set_headers None e);;
        r ← load lr;
        rh ← from_option (AttributeError "headers") (Response.headers r);
        store lr (Response.set_headers (Some (add_headers eh rh)) r);;
        (* copy the rest *)
        e ← load le;
        r ← load lr;
        store lr (Response.dict_update e r)
  | _, _ => mret tt
  end.

Definition socket_error_message : string :=
  "Processing your request failed because our server was unable to communicate "
  +:+ "with a service located on another machine. This is a temporary issue, please "
  +:+ "try again later.".

(** The object [getattr(exception, '__cause__', exception)] evaluates to:
    the attribute exists on every exception, so it is the cause, or [None]
    when there is none; the default is never used. *)
Definition getattr_cause (exception : PyExn) : Cause := exn_cause exception.

(** [isinstance] and [str] on a value that may be [None]. *)
Definition cause_isinstance (p : PyExn → bool) (c : Cause) : bool :=
  match c with CausedBy e => p e | NoCause => false end.
Definition cause_str (c : Cause) : string :=
  match c with CausedBy e => exn_str e | NoCause => "None" end.

Definition turn_socket_error_into_50X (tr : string → string) (exception : PyExn)
    (response : option Response.t) : option Update :=
  let exception := getattr_cause exception in
  let coded :=
    if cause_isinstance isinstance_Timeout exception
       || Py.contains "timeout" (Py.lower (cause_str exception))
    then Some (Response.set_code 504 (default Response.new response))
    else if cause_isinstance isinstance_socket_error exception
            || cause_isinstance isinstance_ConnectionError exception
    then Some (Response.set_code 502 (default Response.new response))
    else None in
  match coded with
  | Some response =>
      let response := Response.set_body (tr socket_error_message) response in
      Some (mkUpdate response VNone)
  | None => None
  end.

Definition bypass_csp_for_form_redirects (state : State) (website : Website)
    (request : option Request.t) : step Response.t unit :=
  match request with
  | None => mret tt
  | Some request =>
      response ← get_obj;
      if Response.code response =? 302 then
        h ← from_option (AttributeError "headers") (Response.headers response);
        target ← from_option (MissingKey "Location") (Headers.getitem "Location" h);
        is_internal ←
          (if bool_decide (Py.take 1 target ∈ ["/"; "."]) then mret true
           else
             scheme ← from_option UnicodeEncodeError
                        (Py.encode_ascii (canonical_scheme website));
             host ← from_option (MissingKey "Host")
                      (Headers.getitem "Host" (Request.headers request));
             mret (Py.startswith target (scheme +:+ "://" +:+ host +:+ "/")));
        if is_internal : bool then mret tt
        else
          modify (Response.set_code 200);;
          '(location, h') ← from_option (MissingKey "Location") (Headers.pop "Location" h);
          modify (Response.set_headers (Some h'));;
          url ← from_option UnicodeDecodeError (Py.decode_ascii location);
          except_Response (refresh state 0 url)
      else mret tt
  end.

Definition overwrite_status_code_of_gateway_errors : step Response.t unit :=
  response ← get_obj;
  if bool_decide (Response.code response ∈ [502; 504])
  then modify (Response.set_code 500)
  else mret tt.

(** ** The vocabulary of the specification for canonicalization *)

(** The forwarded scheme differs from the canonical scheme. *)
Definition bad_scheme (website : Website) (request : Request.t) : bool :=
  bool_decide
    (decode_ascii_replace
       (Headers.get "X-Forwarded-Proto" "http" (Request.headers request))
     ≠ canonical_scheme website).

(** The label of [host] in front of the canonical host, when [host] is a
    subdomain of it. *)
Definition subdomain_of (website : Website) (host : string) : option string :=
  if Py.endswith host ("." +:+ canonical_host website)
  then Some (Py.drop_last (String.length (canonical_host website) + 1) host)
  else None.

(** A host is bad when a canonical host is configured and the host is
    neither that host nor one of its locale subdomains. *)
Definition bad_host (website : Website) (host : string) : bool :=
  Py.truthy (canonical_host website)
  && negb (bool_decide (host = canonical_host website))
  && negb (match subdomain_of website host with
           | Some sub => bool_decide (sub ∈ locales website)
           | None => false
           end).

(** What follows the authority in a redirect: the decoded path and query
    of the request for a safe method, the site root otherwise. *)
Definition path_and_query (request : Request.t) : string :=
  if bool_decide (Request.method request ∈ SAFE_METHODS) then
    let uri := Request.uri (Request.line request) in
    if Request.qs_truthy (Request.uri_querystring uri)
    then Request.decoded (Request.uri_path uri) +:+ "?"
         +:+ Request.qs_decoded (Request.uri_querystring uri)
    else Request.decoded (Request.uri_path uri)
  else "/".

(** The redirect sent for a bad scheme or host, to the given URL. *)
Definition redirect_response (url : string) : Response.t :=
  Response.set_headers
    (Some (Headers.setitem "Location" (encode_url url)
             (Headers.setitem "Cache-Control" "public, max-age=86400" Headers.empty)))
    (Response.set_code 302 Response.new).

(** The statement on locale subdomains in the words of the specification:
    whenever the Host header of the request decodes to [sub.canonical_host]
    with [sub] a configured locale, canonicalization returns without a
    redirect, having put the encoded [sub] and a comma in front of
    Accept-Language. *)
Definition locale_hint_stated (website : Website) (request : Request.t) : Prop :=
  ∀ raw_host sub,
    Headers.getitem "Host" (Request.headers request) = Some raw_host →
    idna_decode raw_host = Decoded (sub +:+ "." +:+ canonical_host website) →
    sub ∈ locales website →
    ∃ enc request',
      idna_encode sub = Some enc ∧
      canonize website request = (request', Return tt) ∧
      Headers.getitem "Accept-Language" (Request.headers request')
      = Some (enc +:+ "," +:+ Headers.get "Accept-Language" "" (Request.headers request)).

(** The Location target of a redirect is internal when it starts with "/",
    "." or the canonical scheme followed by the Host of the request. *)
Definition internal_target (website : Website) (request : option Request.t)
    (target : string) : Prop :=
  Py.startswith target "/" = true ∨
  Py.startswith target "." = true ∨
  ∃ rq scheme host,
    request = Some rq ∧
    Py.encode_ascii (canonical_scheme website) = Some scheme ∧
    Headers.getitem "Host" (Request.headers rq) = Some host ∧
    Py.startswith target (scheme +:+ "://" +:+ host +:+ "/") = true.

(** The statement on redirects in the words of the specification: a 302
    whose Location is internal passes unchanged, any other 302 becomes a
    200 without Location. *)
Definition csp_bypass_stated (state : State) (website : Website)
    (request : option Request.t) (response : Response.t) : Prop :=
  ∀ h target,
    Response.code response = 302 →
    Response.headers response = Some h →
    Headers.getitem "Location" h = Some target →
    (internal_target website request target →
     bypass_csp_for_form_redirects state website request response
     = (response, Return tt)) ∧
    (¬ internal_target website request target →
     ∃ response' h',
       bypass_csp_for_form_redirects state website request response
       = (response', Return tt) ∧
       Response.code response' = 200 ∧
       Response.headers response' = Some h' ∧
       Headers.getitem "Location" h' = None).

(** The statement on a missing response in the words of the specification:
    merging a response-exception when the state holds no response object
    clears the "exception" entry. *)
Definition no_response_stated (st : State) (h : Heap) (le : loc) : Prop :=
  ∃ st' h',
    merge_exception_into_response (VResponse le) None (st, h)
    = ((st', h'), Return tt) ∧
    st' !! "exception" = Some VNone.

(** The exception object once its provenance is set and, for a lazy
    response, its body rendered in the state [st]. *)
Definition processed (st : State) (e : Response.t) : Response.t :=
  let e := set_whence_raised e in
  match Response.cls e, Response.lazy_body e with
  | Response.Lazy, Some f => Response.set_lazy_body None (Response.set_body (f st) e)
  | _, _ => e
  end.

End Steps.

(** ** The other steps of the chain *)

(** What these steps call and the sources do not define. *)
Class Platform := {
  (** [b.decode()], UTF-8, [None] on UnicodeDecodeError; the empty byte
      string decodes to the empty text *)
  decode_utf8 : string → option string;
  decode_utf8_empty : decode_utf8 "" = Some "";
  (** [urlquote(s, encoding='utf8')], [None] on UnicodeEncodeError *)
  urlquote : string → option string;
  (** [traceback.format_exc()] *)
  format_exc : string
}.

(** The attributes [attach_environ_to_request] sets on the request. *)
Record Attached := mkAttached { country : option string; environ : Value }.

(** [r.k = v] for an attribute kept in [attrs] *)
Definition set_attr (k : string) (v : Value) (r : Response.t) : Response.t :=
  Response.mk (Response.cls r) (Response.code r) (Response.body r)
    (Response.headers r) (Response.lazy_body r) (Response.whence_raised r)
    (<[k := v]> (Response.attrs r)).

Section OtherSteps.

Context `{!Platform}.

Definition attach_environ_to_request (env : Value) (request : Request.t)
  : outcome Attached :=
  match decode_utf8 (Headers.get "Cf-Ipcountry" "" (Request.headers request)) with
  | Some s => Return (mkAttached (if Py.truthy s then Some s else None) env)
  | None => Raise UnicodeDecodeError
  end.

(** The response is a new object: its address is one the store does not
    use yet. *)
Definition create_response_object (request website : Value)
  : step Heap (gmap string Value) :=
  h ← get_obj;
  let l := fresh (dom h) in
  let response := Response.new in
  let response := set_attr "request" request response in
  let response := set_attr "website" website response in
  modify (insert l response);;
  mret {[ "response" := VResponse l ]}.

(** [state.setdefault('output', None)] *)
Definition set_output_to_None (state : State) : State :=
  match state !! "output" with
  | Some _ => state
  | None => <["output" := VNone]> state
  end.

(** The step reads [request.qs] only. *)
Definition add_content_disposition_header (qs : Request.Querystring)
  : step Response.t unit :=
  match Mapping.getitem "save_as" (Request.qs_params qs) with
  | Some save_as =>
      if Py.truthy save_as then
        quoted ← from_option UnicodeEncodeError (urlquote save_as);
        save_as ← from_option UnicodeEncodeError (Py.encode_ascii quoted);
        set_header "Content-Disposition" ("attachment; filename*=UTF-8''" +:+ save_as)
      else mret tt
  | None => mret tt
  end.

Definition apology : string :=
  "Uh-oh, you've found a serious bug. Sorry for the inconvenience, "
  +:+ "we'll get it fixed ASAP.".

Definition return_500_for_exception (website : Website) (exception : Value)
    (response : option Response.t) : Update :=
  let response := default Response.new response in
  let response := Response.set_code 500 response in
  let response :=
    if show_tracebacks website
    then Response.set_body format_exc response
    else Response.set_body apology response in
  mkUpdate response VNone.

End OtherSteps.

(** ** A sample site

    Concrete collaborators and objects on which the steps can be run. The
    ASCII codecs are the identity on 7-bit text, the URL functions handle
    origin-form targets (a path with an optional query). *)
Module Sample.

(** The IDNA codec on the names used below: bytes outside ASCII raise
    UnicodeDecodeError, the malformed punycode label [xn--a] raises
    UnicodeError, and a plain ASCII name decodes to itself. *)
Definition decode_name (b : string) : decoding :=
  if negb (Py.is_ascii b) then DecodeError
  else if String.eqb b "xn--a" then CodecError
  else Decoded b.

Fixpoint split_query (s : string) : string * string :=
  match s with
  | EmptyString => (EmptyString, EmptyString)
  | String c s' =>
      if Ascii.eqb c "?" then (EmptyString, s')
      else let (p, q) := split_query s' in (String c p, q)
  end.

Definition split_target (b : Py.bytes)
  : option (Py.bytes * Py.bytes * Py.bytes * Py.bytes * Py.bytes) :=
  let (p, q) := split_query (Py.octets b) in
  Some (Py.Bytes "", Py.Bytes "", Py.Bytes p, Py.Bytes q, Py.Bytes "").

Definition join_target (c : Py.bytes * Py.bytes * Py.bytes * Py.bytes * Py.bytes)
  : Py.bytes :=
  match c with
  | (_, _, p, q, _) =>
      if Py.truthy (Py.octets q)
      then Py.Bytes (Py.octets p +:+ "?" +:+ Py.octets q)
      else p
  end.

Definition parse_target (b : Py.bytes) : Request.URI :=
  let (p, q) := split_query (Py.octets b) in
  Request.mkURI b (Request.mkPath p p)
    (Request.mkQuerystring q q (if Py.truthy q then {[ q := [""] ]} else ∅)).

(** The refresh page: the body names the target, and the response is
    raised once rendered. *)
Definition render_refresh (st : State) (interval : Z) (url : string) : step Response.t unit :=
  modify (Response.set_body ("refresh: " +:+ url));;
  r ← get_obj;
  raise (ResponseExc r).

#[global] Instance externals : Externals := {|
  idna_decode := decode_name;
  idna_encode := Py.encode_ascii;
  decode_ascii_replace := λ b, b;
  urlsplit := split_target;
  urlunsplit := join_target;
  parse_uri := parse_target;
  SAFE_METHODS := {[ "GET"; "HEAD"; "OPTIONS"; "TRACE" ]};
  encode_url := λ u, u;
  refresh := render_refresh;
  over_limit := λ calls _, (3 <=? length calls)%nat;
  whence := (Some "state_chain.py", Some 31)
|}.

Definition website : Website :=
  mkWebsite "example.com" "https" {[ "fr"; "de" ]} false.

Definition headers_of (l : list (string * string)) : Headers.t :=
  foldl (λ h kv, Headers.add (fst kv) (snd kv) h) Headers.empty l.

(** A request for [target] with the given method and header fields. *)
Definition request (m target : string) (hs : list (string * string)) : Request.t :=
  let u := parse_target (Py.Bytes target) in
  Request.mk (Request.mkLine (Py.Bytes m) u (Py.Bytes "HTTP/1.1")) m (Request.uri_path u)
    (headers_of hs) false "203.0.113.7" None.

Definition response_with (c : Z) (hs : list (string * string)) : Response.t :=
  Response.set_headers (Some (headers_of hs)) (Response.set_code c Response.new).

(** A site without a canonical host. *)
Definition open_website : Website :=
  mkWebsite "" "https" {[ "fr"; "de" ]} false.

(** A French-subdomain request on the canonical scheme, the same request
    without the forwarded scheme, and one on a callback path. *)
Definition fr_request : Request.t :=
  request "GET" "/about?x=1"
    [("Host", "fr.example.com"); ("X-Forwarded-Proto", "https");
     ("Accept-Language", "en")].

Definition fr_http_request : Request.t :=
  request "GET" "/about?x=1" [("Host", "fr.example.com")].

Definition fr_callback_request : Request.t :=
  request "GET" "/callbacks/payin"
    [("Host", "fr.example.com"); ("X-Forwarded-Proto", "https")].

Definition fr_dot_request : Request.t :=
  request "GET" "/about" [("Host", "fr."); ("X-Forwarded-Proto", "https")].

(** A POST to a foreign host and a callback with a trailing slash. *)
Definition foreign_post : Request.t :=
  request "POST" "/donate?amount=5"
    [("Host", "evil.example"); ("X-Forwarded-Proto", "https")].

Definition callback_slash : Request.t :=
  request "POST" "/callbacks/stripe/?id=7" [("Host", "example.com")].

(** A request that came around the proxy. *)
Definition direct_request : Request.t :=
  Request.mk
    (Request.mkLine (Py.Bytes "GET") (parse_target (Py.Bytes "/about")) (Py.Bytes "HTTP/1.1"))
    "GET"
    (Request.mkPath "/about" "/about") (headers_of [("Host", "example.com")])
    true "203.0.113.7" None.

Definition form_post : Request.t :=
  request "POST" "/submit" [("Host", "mysite.com")].

(** An external and an internal redirect. *)
Definition external_redirect : Response.t :=
  response_with 302 [("Location", "https://evil.example/x")].

Definition internal_redirect : Response.t :=
  response_with 302 [("Location", "/local/path")].

(** A response with a cookie jar and an exception to merge into it: a lazy
    response raised as a redirect. *)
Definition with_cookies (c : list (string * string)) (r : Response.t) : Response.t :=
  Response.set_headers
    (Some (Headers.cookie_update (list_to_map c)
             (default Headers.empty (Response.headers r)))) r.

Definition held_response : Response.t :=
  with_cookies [("session", "old"); ("lang", "en")]
    (response_with 200 [("Vary", "Cookie")]).

Definition raised_response : Response.t :=
  Response.mk Response.Lazy 302 ""
    (Response.headers
       (with_cookies [("session", "new")]
          (response_with 302 [("Vary", "Accept"); ("Location", "/login")])))
    (Some (λ _, "Please log in")) None ∅.

Definition heap : Heap := {[ 1%positive := held_response; 2%positive := raised_response ]}.

Definition state : State :=
  {[ "response" := VResponse 1%positive; "exception" := VResponse 2%positive ]}.

(** A state whose only entry is a raised response. *)
Definition bare_state : State := {[ "exception" := VResponse 2%positive ]}.

(** The platform of the sample site: 7-bit country codes, a quoting that
    escapes spaces, and a fixed traceback. *)
Fixpoint quote_spaces (s : string) : string :=
  match s with
  | EmptyString => EmptyString
  | String c s' =>
      if Ascii.eqb c " " then "%20" +:+ quote_spaces s'
      else String c (quote_spaces s')
  end.

#[global] Instance platform : Platform := {|
  decode_utf8 := Py.decode_ascii;
  decode_utf8_empty := eq_refl;
  urlquote := λ s, Some (quote_spaces s);
  format_exc := "Traceback (most recent call last): ..."
|}.

(** A query string with the given parameters. *)
Definition querystring (raw : string) (ps : list (string * string)) : Request.Querystring :=
  Request.mkQuerystring raw raw (Headers.fields (headers_of ps)).

(** A request from France, through the proxy. *)
Definition french_visitor : Request.t :=
  request "GET" "/about" [("Host", "example.com"); ("Cf-Ipcountry", "FR")].

(** A request whose Host header is not 7-bit. *)
Definition odd_host_request : Request.t :=
  request "GET" "/about"
    [("Host", String (ascii_of_nat 233) "xample.com"); ("X-Forwarded-Proto", "https")].

(** A callback with a trailing slash and no query, and requests whose
    Host header is a malformed punycode label. *)
Definition callback_dir : Request.t :=
  request "GET" "/callbacks/paypal/" [("Host", "example.com")].

Definition malformed_host_request : Request.t :=
  request "GET" "/about?x=1" [("Host", "xn--a")].

Definition malformed_host_callback : Request.t :=
  request "POST" "/callbacks/stripe" [("Host", "xn--a")].

(** A request with a query on a foreign host. *)
Definition foreign_get : Request.t :=
  request "GET" "/explore?page=2"
    [("Host", "evil.example"); ("X-Forwarded-Proto", "https")].

(** A request on the canonical scheme and host, and a callback from a
    foreign host. *)
Definition canonical_request : Request.t :=
  request "GET" "/about" [("Host", "example.com"); ("X-Forwarded-Proto", "https")].

Definition foreign_callback : Request.t :=
  request "POST" "/callbacks/stripe" [("Host", "evil.example")].

(** A request without a Host header. *)
Definition hostless_request : Request.t := request "POST" "/submit" [].

(** A connection error about a timeout, raised again as a payment error. *)
Definition wrapped_timeout : PyExn :=
  mkExn false false false "payment failed"
    (CausedBy (mkExn false true true "Read Timeout" NoCause)).

Definition wrapped_refusal : PyExn :=
  mkExn false false false "payment failed"
    (CausedBy (mkExn false true true "Connection refused" NoCause)).

(** A redirect with two Location values and one whose target is not 7-bit. *)
Definition double_redirect : Response.t :=
  response_with 302
    [("Location", "/first"); ("Location", "https://evil.example/x");
     ("Vary", "Cookie")].

Definition odd_redirect : Response.t :=
  response_with 302 [("Location", String (ascii_of_nat 233) "vil.example")].

End Sample.

(** ** Properties of the steps *)

Ltac step_unfold :=
  unfold mbind, mret, step_mbind, step_mret, step_bind, step_ret, raise,
    get_obj, modify, from_option, lift_outcome, on_new, except_Response in *.

Section Properties.

Context `{!Externals}.

(** C8. The gateway-error masking step rewrites a response code of 502 or
    504 to 500; once it has run, the response code is neither 502 nor 504.
    The step always returns. *)
Theorem gateway_errors_masked (response : Response.t) :
  let result := overwrite_status_code_of_gateway_errors response in
  snd result = Return tt ∧
  (Response.code response = 502 ∨ Response.code response = 504 →
     fst result = Response.set_code 500 response) ∧
  Response.code (fst result) ≠ 502 ∧
  Response.code (fst result) ≠ 504.
Proof.
  unfold overwrite_status_code_of_gateway_errors. step_unfold. simpl.
  case_bool_decide as Hc; simpl.
  - repeat split; auto; discriminate.
  - repeat split; auto.
    + intros [Hc'|Hc']; exfalso; apply Hc; rewrite Hc', !elem_of_cons; auto.
    + intros Hc'. apply Hc. rewrite Hc', !elem_of_cons. auto.
    + intros Hc'. apply Hc. rewrite Hc', !elem_of_cons. auto.
Qed.

(** C5. When the request bypasses the proxy and its raw path is not
    "/callbacks/health", the proxy guard raises the response as a 403
    carrying the message "The request bypassed a proxy."; in every other
    case it returns and leaves the response as it was. *)
Theorem proxy_bypass_guard (request : Request.t) (response : Response.t) :
  (Request.bypasses_proxy request = true →
   Request.raw (Request.path request) ≠ "/callbacks/health" →
   ∃ r, reject_requests_bypassing_proxy request response = (r, Raise (ResponseExc r)) ∧
        Response.code r = 403 ∧
        Response.body r = "The request bypassed a proxy." ∧
        r = error 403 "The request bypassed a proxy." response) ∧
  (Request.bypasses_proxy request = false ∨
   Request.raw (Request.path request) = "/callbacks/health" →
   reject_requests_bypassing_proxy request response = (response, Return tt)).
Proof.
  unfold reject_requests_bypassing_proxy. split.
  - intros Hb Hp. rewrite Hb, bool_decide_true by done. simpl.
    eexists. step_unfold. simpl. eauto.
  - intros [Hb|Hp].
    + rewrite Hb. reflexivity.
    + rewrite bool_decide_false, andb_false_r by (intros Hn; apply Hn, Hp).
      reflexivity.
Qed.

(** C9. The rate-limiting step leaves the store alone for GET and HEAD.
    For any other method the store receives exactly one more call, carrying
    the too-many-requests signal: on bucket "http-unsafe.user" with the
    account id when [user.id] is true, on bucket "http-unsafe.ip-addr" with
    the source address otherwise. The step raises the signal exactly when
    the store reports the limit exceeded. *)
Theorem rate_limit_call (request : Request.t) (user : User) (calls : list Call) :
  (Request.method request = "GET" ∨ Request.method request = "HEAD" →
   enforce_rate_limits request user calls = (calls, Return tt)) ∧
  (Request.method request ≠ "GET" → Request.method request ≠ "HEAD" →
   let call :=
     match truthy_id user with
     | Some n => mkCall "http-unsafe.user" (KeyId n) TooManyRequests
     | None => mkCall "http-unsafe.ip-addr" (KeyAddr (Request.source request))
                 TooManyRequests
     end in
   enforce_rate_limits request user calls =
     (calls ++ [call],
      if over_limit calls call then Raise TooManyRequests else Return tt)).
Proof.
  unfold enforce_rate_limits. split.
  - intros Hm. rewrite bool_decide_true; [done|].
    rewrite !elem_of_cons. tauto.
  - intros Hg Hh. rewrite bool_decide_false.
    2:{ rewrite !elem_of_cons, elem_of_nil. tauto. }
    unfold hit_rate_limit. step_unfold.
    destruct (truthy_id user); simpl; by destruct (over_limit _ _).
Qed.

(** *** Socket errors *)

(** An exception that was not raised from another one is replaced by its
    [__cause__], which is [None]: the step then matches nothing. *)
Lemma uncaused_exception_ignored tr e response :
  exn_cause e = NoCause → turn_socket_error_into_50X tr e response = None.
Proof.
  intros Hc. unfold turn_socket_error_into_50X, getattr_cause. rewrite Hc.
  reflexivity.
Qed.

(** For an exception raised from another one, the cause is classified:
    a timeout by type or by text gives 504, also for a connection error. *)
Lemma caused_timeout_504 tr e c response :
  exn_cause e = CausedBy c →
  isinstance_Timeout c = true ∨ Py.contains "timeout" (Py.lower (exn_str c)) = true →
  turn_socket_error_into_50X tr e response =
    Some (mkUpdate (Response.set_body (tr socket_error_message)
                      (Response.set_code 504 (default Response.new response))) VNone).
Proof.
  intros Hc Ht. unfold turn_socket_error_into_50X, getattr_cause. rewrite Hc. simpl.
  destruct Ht as [-> | ->]; [|rewrite orb_true_r]; reflexivity.
Qed.

(** X23. For an exception raised from another one whose cause is no
    timeout, neither by class nor by text, a socket or connection failure
    gives a 502 response with the translated message, on the response the
    step was given or on a new one. *)
Lemma caused_socket_502 tr e c response :
  exn_cause e = CausedBy c →
  isinstance_Timeout c = false →
  Py.contains "timeout" (Py.lower (exn_str c)) = false →
  isinstance_socket_error c = true ∨ isinstance_ConnectionError c = true →
  turn_socket_error_into_50X tr e response =
    Some (mkUpdate (Response.set_body (tr socket_error_message)
                      (Response.set_code 502 (default Response.new response))) VNone).
Proof.
  intros Hc Ht Hs Hk. unfold turn_socket_error_into_50X, getattr_cause.
  rewrite Hc. simpl. rewrite Ht, Hs. simpl.
  destruct Hk as [-> | ->]; [|rewrite orb_true_r]; reflexivity.
Qed.

Lemma caused_other_ignored tr e c response :
  exn_cause e = CausedBy c →
  isinstance_Timeout c = false →
  Py.contains "timeout" (Py.lower (exn_str c)) = false →
  isinstance_socket_error c = false →
  isinstance_ConnectionError c = false →
  turn_socket_error_into_50X tr e response = None.
Proof.
  intros Hc Ht Hs Hk Hn. unfold turn_socket_error_into_50X, getattr_cause.
  rewrite Hc. simpl. by rewrite Ht, Hs, Hk, Hn.
Qed.

(** C6. The socket-error step is meant to answer 504 for a timeout, by type
    or by text. On a timeout exception whose text is "timeout" and which
    was not raised from another exception, the step returns nothing: no
    response is produced and the exception stays. *)
Theorem timeout_without_cause_not_translated :
  turn_socket_error_into_50X (λ s, s) (mkExn true true false "timeout" NoCause) None
  = None.
Proof. by apply uncaused_exception_ignored. Qed.

(** *** Canonicalization *)

(** Without a Host header canonicalization fails on its first line, before
    any path is looked at. *)
Lemma canonize_without_host (website : Website) (request : Request.t) :
  Headers.getitem "Host" (Request.headers request) = None →
  canonize website request = (request, Raise (MissingKey "Host")).
Proof.
  intros Hh. unfold canonize. step_unfold. simpl. by rewrite Hh.
Qed.

(** A text that ends with "/" has the one-character text "/" as its last
    item. *)
Lemma str_last_slash (s : string) :
  Py.last_char s = Some "/"%char → Py.str_last s = Some (Py.Str "/").
Proof. unfold Py.str_last. by intros ->. Qed.

(** The last item of a byte string is a number, whatever the byte: it is
    not equal to the text "/". *)
Lemma bytes_last_not_text (b : Py.bytes) (v : Py.value) (s : string) :
  Py.bytes_last b = Some v → Py.eq v (Py.Str s) = false.
Proof.
  unfold Py.bytes_last. destruct (Py.last_char (Py.octets b)); simpl; [|done].
  by intros [= <-].
Qed.

(** C10, on the code. For a request whose Host header decodes, whose raw
    path starts with "/callbacks/" and ends with "/", and whose request-line
    URI splits into components with that same path, the sanity check of
    line 50 does not hold: the URI is a byte string, so is the split path,
    its last item is the number 47, and a number is not equal to the text
    "/". Canonicalization stops with AssertionError, the hostname recorded
    and the request line as it was. *)
Theorem callback_trailing_slash_assertion_fails (website : Website)
    (request : Request.t) (raw_host host : string)
    (scheme netloc path query fragment : Py.bytes) :
  Headers.getitem "Host" (Request.headers request) = Some raw_host →
  decode_host raw_host = Return host →
  Py.startswith (Request.raw (Request.path request)) "/callbacks/" = true →
  Py.last_char (Request.raw (Request.path request)) = Some "/"%char →
  urlsplit (Request.uri_bytes (Request.uri (Request.line request)))
    = Some (scheme, netloc, path, query, fragment) →
  Py.octets path = Request.raw (Request.path request) →
  Py.bytes_last path = Some (Py.Int 47) ∧
  Py.eq (Py.Int 47) (Py.Str "/") = false ∧
  canonize website request
  = (Request.set_hostname host request, Raise AssertionError).
Proof.
  intros Hh Hdec Hcb Hlast Hsplit Hpath.
  assert (Hitem : Py.bytes_last path = Some (Py.Int 47)).
  { unfold Py.bytes_last. by rewrite Hpath, Hlast. }
  split; [exact Hitem|]. split; [reflexivity|].
  unfold canonize. step_unfold. simpl.
  rewrite Hh. simpl. rewrite Hdec. simpl.
  rewrite Hcb, (str_last_slash _ Hlast). simpl.
  rewrite Hsplit. simpl. rewrite Hitem. reflexivity.
Qed.

Lemma app_String (c : ascii) (s t : string) : String c s +:+ t = String c (s +:+ t).
Proof. reflexivity. Qed.

Lemma app_assoc_str (a b c : string) : (a +:+ b) +:+ c = a +:+ b +:+ c.
Proof. induction a as [|x a IH]; [done|]. rewrite !app_String. by f_equal. Qed.

Lemma length_app_str (a b : string) :
  String.length (a +:+ b) = (String.length a + String.length b)%nat.
Proof. induction a as [|x a IH]; [done|]. rewrite app_String. simpl. by f_equal. Qed.

Lemma substring_all (s : string) : String.substring 0 (String.length s) s = s.
Proof. induction s as [|x s IH]; [done|]. simpl. by f_equal. Qed.

Lemma substring_app_l (a b : string) :
  String.substring 0 (String.length a) (a +:+ b) = a.
Proof.
  induction a as [|x a IH]; [by destruct b|]. rewrite app_String. simpl. by f_equal.
Qed.

Lemma substring_app_r (a b : string) :
  String.substring (String.length a) (String.length b) (a +:+ b) = b.
Proof.
  induction a as [|x a IH]; [apply substring_all|]. by rewrite app_String.
Qed.

Lemma endswith_app (a b : string) : Py.endswith (a +:+ b) b = true.
Proof.
  unfold Py.endswith, Py.take_last. rewrite length_app_str.
  apply andb_true_intro. split; [apply Nat.leb_le; lia|].
  replace (String.length a + String.length b - String.length b)%nat
    with (String.length a) by lia.
  rewrite substring_app_r. apply String.eqb_refl.
Qed.

Lemma drop_last_app (a b : string) (n : nat) :
  n = String.length b → Py.drop_last n (a +:+ b) = a.
Proof.
  intros ->. unfold Py.drop_last. rewrite length_app_str.
  replace (String.length a + String.length b - String.length b)%nat
    with (String.length a) by lia.
  apply substring_app_l.
Qed.

(** The host [sub.canonical_host] is a subdomain with label [sub]. *)
Lemma subdomain_of_app (website : Website) (sub : string) :
  subdomain_of website (sub +:+ "." +:+ canonical_host website) = Some sub.
Proof.
  unfold subdomain_of. rewrite endswith_app. f_equal.
  apply drop_last_app.
  change ("." +:+ canonical_host website) with (String "." (canonical_host website)).
  simpl. lia.
Qed.

Lemma subdomain_not_canonical (sub ch : string) : sub +:+ "." +:+ ch ≠ ch.
Proof.
  intros Heq. apply (f_equal String.length) in Heq.
  change ("." +:+ ch) with (String "." ch) in Heq.
  rewrite length_app_str in Heq. simpl in Heq. lia.
Qed.

Lemma truthy_nonempty (s : string) : s ≠ "" → Py.truthy s = true.
Proof. by destruct s. Qed.

Lemma redirect_url_path_and_query (request : Request.t) (base : string) :
  (if bool_decide (Request.method request ∈ SAFE_METHODS)
   then
     if Request.qs_truthy (Request.uri_querystring (Request.uri (Request.line request)))
     then (base +:+ Request.decoded (Request.uri_path (Request.uri (Request.line request))))
          +:+ "?"
          +:+ Request.qs_decoded (Request.uri_querystring (Request.uri (Request.line request)))
     else base +:+ Request.decoded (Request.uri_path (Request.uri (Request.line request)))
   else base +:+ "/")
  = base +:+ path_and_query request.
Proof.
  unfold path_and_query. case_bool_decide; [|done].
  destruct (Request.qs_truthy _); [|done]. by rewrite app_assoc_str.
Qed.

Ltac redirect_done Hbad :=
  rewrite Hbad; simpl; rewrite redirect_url_path_and_query, !app_assoc_str;
  eexists; split; reflexivity.

(** What canonicalization does outside the callback paths, in terms of
    [bad_scheme] and [bad_host]. *)
Lemma canonize_redirects (website : Website) (request : Request.t)
    (raw_host host : string) :
  Headers.getitem "Host" (Request.headers request) = Some raw_host →
  decode_host raw_host = Return host →
  Py.startswith (Request.raw (Request.path request)) "/callbacks/" = false →
  (∀ l, l ∈ locales website → is_Some (idna_encode l)) →
  bad_scheme website request || bad_host website host = true →
  ∃ request',
    canonize website request =
      (request',
       Raise (ResponseExc
                (redirect_response
                   (canonical_scheme website +:+ "://"
                    +:+ (if bad_host website host
                         then canonical_host website else host)
                    +:+ path_and_query request)))) ∧
    Request.hostname request' = Some host.
Proof.
  intros Hh Hdec Hcb Henc Hbad.
  unfold canonize. step_unfold. simpl. rewrite Hh. simpl. rewrite Hdec. simpl.
  rewrite Hcb. fold (bad_scheme website request).
  unfold bad_host, subdomain_of in *.
  destruct (Py.truthy (canonical_host website)); simpl in *.
  - destruct (bool_decide (host = canonical_host website)); simpl in *.
    + redirect_done Hbad.
    + destruct (Py.endswith host _); simpl in *.
      * destruct (bool_decide_reflect
                    (Py.drop_last (String.length (canonical_host website) + 1) host
                     ∈ locales website)) as [Hloc|Hloc]; simpl in *.
        -- destruct (Henc _ Hloc) as [enc Hencs]. rewrite Hencs. simpl.
           redirect_done Hbad.
        -- redirect_done Hbad.
      * redirect_done Hbad.
  - redirect_done Hbad.
Qed.


(** The failures of the IDNA codec part ways on lines 41 to 43: after a
    UnicodeDecodeError the step goes on with the empty hostname, after any
    other UnicodeError it stops there. *)
Lemma decode_host_caught (raw_host : string) :
  idna_decode raw_host = DecodeError → decode_host raw_host = Return "".
Proof. unfold decode_host. by intros ->. Qed.

Lemma decode_host_uncaught (raw_host : string) :
  idna_decode raw_host = CodecError → decode_host raw_host = Raise UnicodeError.
Proof. unfold decode_host. by intros ->. Qed.

(** C4, on the code. When decoding the Host header raises a UnicodeError
    that is no UnicodeDecodeError (a malformed punycode label), the handler
    of line 42 does not catch it: canonicalization stops on line 41 with
    that error, whatever the scheme, the path and the method of the request.
    No redirect is built, and the request is left as it was, without a
    hostname recorded. *)
Theorem malformed_host_not_redirected (website : Website) (request : Request.t)
    (raw_host : string) :
  Headers.getitem "Host" (Request.headers request) = Some raw_host →
  idna_decode raw_host = CodecError →
  canonize website request = (request, Raise UnicodeError).
Proof.
  intros Hh Hdec. unfold canonize. step_unfold. simpl.
  rewrite Hh. simpl. by rewrite (decode_host_uncaught _ Hdec).
Qed.

(** C3, as the code has it. Outside the callback paths and with a canonical
    host configured, a request whose Host header decodes to
    [sub.canonical_host], [sub] being a configured locale with IDNA
    encoding [enc], gets [enc] and a comma put in front of its
    Accept-Language header (empty when absent), and its host is not bad.
    Canonicalization then returns without redirecting when the scheme is
    the canonical one; with a bad scheme it redirects to the canonical
    scheme on the request's own host. *)
Theorem locale_subdomain_hint (website : Website) (request : Request.t)
    (raw_host sub enc : string) :
  Headers.getitem "Host" (Request.headers request) = Some raw_host →
  idna_decode raw_host = Decoded (sub +:+ "." +:+ canonical_host website) →
  sub ∈ locales website →
  idna_encode sub = Some enc →
  Py.startswith (Request.raw (Request.path request)) "/callbacks/" = false →
  canonical_host website ≠ "" →
  let host := sub +:+ "." +:+ canonical_host website in
  let request' :=
    Request.set_headers
      (Headers.setitem "Accept-Language"
         (enc +:+ "," +:+ Headers.get "Accept-Language" "" (Request.headers request))
         (Request.headers request))
      (Request.set_hostname host request) in
  bad_host website host = false ∧
  (bad_scheme website request = false →
   canonize website request = (request', Return tt)) ∧
  (bad_scheme website request = true →
   canonize website request =
     (request',
      Raise (ResponseExc
               (redirect_response
                  (canonical_scheme website +:+ "://" +:+ host
                   +:+ path_and_query request))))).
Proof.
  intros Hh Hdec Hloc Henc Hcb Hch host request'.
  assert (Hbh : bad_host website host = false).
  { unfold bad_host, host. rewrite subdomain_of_app.
    rewrite (bool_decide_true (sub ∈ locales website)) by done.
    apply andb_false_r. }
  split; [exact Hbh|].
  assert (Hrun : canonize website request =
    (if bad_scheme website request
     then on_new (S:=Request.t) Response.new
            (set_header "Cache-Control" "public, max-age=86400";;
             redirect (canonical_scheme website +:+ "://" +:+ host
                       +:+ path_and_query request))
     else mret tt) request').
  { unfold canonize, decode_host. step_unfold. simpl. rewrite Hh. simpl.
    rewrite Hdec. simpl. rewrite Hcb.
    fold host. fold (bad_scheme website request).
    rewrite truthy_nonempty by done.
    rewrite bool_decide_false by apply subdomain_not_canonical.
    unfold host at 1. rewrite endswith_app.
    pose proof (subdomain_of_app website sub) as Hsub.
    unfold subdomain_of in Hsub. rewrite endswith_app in Hsub.
    injection Hsub as Hsub. fold host in Hsub. rewrite Hsub.
    rewrite bool_decide_true by done. rewrite Henc. simpl.
    rewrite orb_false_r. destruct (bad_scheme website request); [|done].
    by rewrite redirect_url_path_and_query, !app_assoc_str. }
  split; intros Hs; rewrite Hrun, Hs; reflexivity.
Qed.

(** *** Redirects and the content security policy *)

Lemma startswith_char (c : ascii) (s : string) :
  Py.startswith s (String c "") = true ↔ Py.take 1 s = String c "".
Proof. unfold Py.startswith, Py.take. apply String.prefix_correct. Qed.

Lemma take1_in (target : string) :
  Py.take 1 target ∈ ["/"; "."] ↔
  Py.startswith target "/" = true ∨ Py.startswith target "." = true.
Proof.
  rewrite !elem_of_cons, elem_of_nil, !startswith_char. tauto.
Qed.

(** Popping a name that has a single value removes the name. *)
Lemma pop_single (k v : string) (h : Headers.t) :
  Headers.all k h = [v] →
  ∃ h', Headers.pop k h = Some (v, h') ∧ Headers.getitem k h' = None.
Proof.
  unfold Headers.all, Headers.pop, Headers.getitem, Mapping.all, Mapping.pop,
    Mapping.getitem.
  destruct (Headers.fields h !! k) as [vs|] eqn:Hk; simpl; [|done].
  intros ->. simpl. eexists. split; [done|]. simpl. by rewrite lookup_delete_eq.
Qed.

(** Indexing and popping read the same value. *)
Lemma pop_getitem (k v : string) (h : Headers.t) :
  Headers.getitem k h = Some v →
  ∃ h', Headers.pop k h = Some (v, h') ∧
        Headers.all k h' = removelast (Headers.all k h).
Proof.
  unfold Headers.all, Headers.pop, Headers.getitem, Mapping.all, Mapping.pop,
    Mapping.getitem.
  destruct (Headers.fields h !! k) as [vs|] eqn:Hk; simpl; [|done].
  intros ->. eexists. split; [done|]. simpl.
  destruct (removelast vs) eqn:Hr.
  - by rewrite lookup_delete_eq.
  - by rewrite lookup_insert_eq.
Qed.

(** C7, as the code has it. Without a request the step does nothing. With
    a request it acts only on responses with code 302: when the Location
    target starts with "/", "." or the canonical scheme followed by
    "://", the Host of the request and "/", the response passes unchanged;
    otherwise the code becomes 200, the Location value is popped from the
    headers, and the refresh page for the decoded target is rendered on
    the response, a response raised by the rendering being swallowed. *)
Theorem csp_bypass_for_redirects (state : State) (website : Website)
    (rq : Request.t) (response : Response.t) :
  bypass_csp_for_form_redirects state website None response = (response, Return tt) ∧
  (Response.code response ≠ 302 →
   bypass_csp_for_form_redirects state website (Some rq) response
   = (response, Return tt)) ∧
  (∀ h target,
     Response.code response = 302 →
     Response.headers response = Some h →
     Headers.getitem "Location" h = Some target →
     (internal_target website (Some rq) target →
      bypass_csp_for_form_redirects state website (Some rq) response
      = (response, Return tt)) ∧
     (∀ scheme host url,
        Py.encode_ascii (canonical_scheme website) = Some scheme →
        Headers.getitem "Host" (Request.headers rq) = Some host →
        Py.decode_ascii target = Some url →
        ¬ internal_target website (Some rq) target →
        ∃ h',
          Headers.pop "Location" h = Some (target, h') ∧
          Headers.all "Location" h' = removelast (Headers.all "Location" h) ∧
          let rewritten :=
            Response.set_headers (Some h') (Response.set_code 200 response) in
          Response.code rewritten = 200 ∧
          bypass_csp_for_form_redirects state website (Some rq) response
          = (fst (refresh state 0 url rewritten),
             match snd (refresh state 0 url rewritten) with
             | Raise (ResponseExc _) => Return tt
             | o => o
             end))).
Proof.
  split; [reflexivity|]. split.
  - intros Hc. unfold bypass_csp_for_form_redirects. step_unfold. simpl.
    by rewrite (proj2 (Z.eqb_neq _ _) Hc).
  - intros h target Hc Hh Ht. split.
    + intros Hint. unfold bypass_csp_for_form_redirects. step_unfold. simpl.
      rewrite Hc, Hh. simpl. rewrite Ht. step_unfold. simpl.
      destruct (bool_decide_reflect (Py.take 1 target ∈ ["/"; "."])) as [Hin|Hin];
        [done|].
      destruct Hint as [Hs|[Hs|(rq' & sch & host & [= <-] & Hsch & Hhost & Hs)]].
      * exfalso. apply Hin, take1_in. by left.
      * exfalso. apply Hin, take1_in. by right.
      * rewrite Hsch. step_unfold. simpl. rewrite Hhost. step_unfold. simpl.
        by rewrite Hs.
    + intros scheme host url Hsch Hhost Hurl Hext.
      destruct (pop_getitem _ _ _ Ht) as (h' & Hpop & Hall).
      exists h'. split; [done|]. split; [done|]. split; [done|].
      unfold bypass_csp_for_form_redirects. step_unfold. simpl.
      rewrite Hc, Hh. simpl. rewrite Ht. step_unfold. simpl.
      destruct (bool_decide_reflect (Py.take 1 target ∈ ["/"; "."])) as [Hin|Hin].
      { exfalso. apply Hext. apply take1_in in Hin.
        unfold internal_target. tauto. }
      rewrite Hsch. step_unfold. simpl. rewrite Hhost. step_unfold. simpl.
      destruct (Py.startswith target _) eqn:Hs.
      { exfalso. apply Hext. right. right. by exists rq, scheme, host. }
      rewrite Hpop. step_unfold. simpl. rewrite Hurl. step_unfold. simpl.
      destruct (refresh state 0 url _) as [r' [[]|[]]]; reflexivity.
Qed.

(** *** Merging an exception into the response *)

Lemma all_add (k k' v : string) (h : Headers.t) :
  Headers.all k' (Headers.add k v h)
  = if decide (k = k') then Headers.all k' h ++ [v] else Headers.all k' h.
Proof.
  unfold Headers.all, Headers.add, Headers.map_fields, Mapping.all, Mapping.add.
  simpl. destruct (Headers.fields h !! k) as [vs|] eqn:Hk.
  - rewrite lookup_insert. case_decide; [subst; by rewrite Hk|done].
  - rewrite lookup_insert. case_decide; [subst; by rewrite Hk|done].
Qed.

Lemma all_add_values (k k' : string) (vs : list string) (h : Headers.t) :
  Headers.all k' (add_values k vs h)
  = if decide (k = k') then Headers.all k' h ++ vs else Headers.all k' h.
Proof.
  unfold add_values. revert h.
  induction vs as [|v vs IH]; intros h; simpl.
  - case_decide; [by rewrite app_nil_r|done].
  - rewrite IH, all_add. case_decide; [|done]. by rewrite <- app_assoc.
Qed.

Lemma cookie_add_values (k : string) (vs : list string) (h : Headers.t) :
  Headers.cookie (add_values k vs h) = Headers.cookie h.
Proof.
  unfold add_values. revert h. induction vs as [|v vs IH]; intros h; simpl; [done|].
  by rewrite IH.
Qed.

(** Adding the headers of [src] to [dst] appends, name by name, the values
    of [src] after those of [dst], and leaves the cookies of [dst] alone. *)
Lemma add_headers_spec (src dst : Headers.t) :
  (∀ k, Headers.all k (add_headers src dst)
        = Headers.all k dst ++ Headers.all k src) ∧
  Headers.cookie (add_headers src dst) = Headers.cookie dst.
Proof.
  unfold add_headers, Headers.all at 3, Mapping.all.
  apply (map_fold_weak_ind
           (λ r (m : gmap string (list string)),
              (∀ k, Headers.all k r = Headers.all k dst ++ default [] (m !! k)) ∧
              Headers.cookie r = Headers.cookie dst)).
  - split; [|done]. intros k. by rewrite lookup_empty, app_nil_r.
  - intros i vs m r Hi [IH Hck]. split.
    + intros k. rewrite all_add_values, IH, lookup_insert.
      case_decide; [|done]. subst. by rewrite Hi, app_nil_r.
    + by rewrite cookie_add_values.
Qed.

Ltac heap_simpl :=
  repeat (step_unfold; unfold load, store, set_state; simpl;
          rewrite ?lookup_insert_eq, ?lookup_insert_ne by done; simpl).

(** Processing the exception object leaves its headers alone. *)
Lemma processed_headers (st : State) (e : Response.t) :
  Response.headers (processed st e) = Response.headers e.
Proof.
  unfold processed. simpl. destruct (Response.cls e), (Response.lazy_body e); done.
Qed.

(** C1. When the merge step runs with a response-exception and a distinct
    response object, both carrying headers, it returns with the state's
    "exception" entry cleared; in the response's cookie jar every name of
    the exception's jar has the exception's cookie and the other names are
    as before; and for every header name the response has its former
    values followed by the exception's values. *)
Theorem exception_merged_into_response (st : State) (h : Heap) (le lr : loc)
    (e r : Response.t) (eh rh : Headers.t) :
  le ≠ lr →
  h !! le = Some e →
  h !! lr = Some r →
  Response.headers e = Some eh →
  Response.headers r = Some rh →
  (Response.cls e = Response.Lazy → is_Some (Response.lazy_body e)) →
  ∃ st' h' r' rh',
    merge_exception_into_response (VResponse le) (Some lr) (st, h)
    = ((st', h'), Return tt) ∧
    st' !! "exception" = Some VNone ∧
    h' !! lr = Some r' ∧
    Response.headers r' = Some rh' ∧
    (∀ name c, Headers.cookie eh !! name = Some c →
               Headers.cookie rh' !! name = Some c) ∧
    (∀ name, Headers.cookie eh !! name = None →
             Headers.cookie rh' !! name = Headers.cookie rh !! name) ∧
    (∀ k, Headers.all k rh' = Headers.all k rh ++ Headers.all k eh).
Proof.
  intros Hne He Hr Heh Hrh Hlazy.
  destruct (add_headers_spec eh (Headers.cookie_update (Headers.cookie eh) rh))
    as [Hall Hck].
  assert (Hdone : ∀ (st' : State) (h' : Heap) (e' r1 : Response.t),
    ∃ st'' h'' r' rh',
      (<["exception" := VNone]> st,
       <[lr := Response.dict_update (Response.set_headers None e')
                 (Response.set_headers
                    (Some (add_headers eh
                             (Headers.cookie_update (Headers.cookie eh) rh))) r1)]> h',
       Return tt) = ((st'', h''), Return tt) ∧
      st'' !! "exception" = Some VNone ∧
      h'' !! lr = Some r' ∧
      Response.headers r' = Some rh' ∧
      (∀ name c, Headers.cookie eh !! name = Some c →
                 Headers.cookie rh' !! name = Some c) ∧
      (∀ name, Headers.cookie eh !! name = None →
               Headers.cookie rh' !! name = Headers.cookie rh !! name) ∧
      (∀ k, Headers.all k rh' = Headers.all k rh ++ Headers.all k eh)).
  { intros st' h' e' r1. eexists _, _, _, _. split; [reflexivity|].
    split; [apply lookup_insert_eq|]. split; [apply lookup_insert_eq|].
    split; [reflexivity|]. split; [|split].
    - intros name c Hc. rewrite Hck. simpl. by apply lookup_union_Some_l.
    - intros name Hc. rewrite Hck. simpl. by apply lookup_union_r.
    - intros k. by rewrite Hall. }
  unfold merge_exception_into_response. heap_simpl. rewrite He. heap_simpl.
  destruct (Response.cls e) eqn:Hcls; heap_simpl.
  - rewrite (bool_decide_false (le = lr)) by done. heap_simpl.
    rewrite Hr. heap_simpl. rewrite Hrh, Heh. heap_simpl.
    apply (Hdone st).
  - destruct (Hlazy eq_refl) as [f Hf]. unfold render_body. simpl.
    rewrite Hf. heap_simpl.
    rewrite (bool_decide_false (le = lr)) by done. heap_simpl.
    rewrite Hr. heap_simpl. rewrite Hrh, Heh. heap_simpl.
    apply (Hdone st).
Qed.

(** C2, as the code has it. With no response object the merge step returns
    at once and leaves the state, its "exception" entry included, as it
    was. When the response-exception is the very object held as the
    response, the step clears the "exception" entry, sets the provenance
    and renders a lazy body, and stops there: that object stays the
    response, with its headers and cookies as they were. *)
Theorem exception_is_response (st : State) (h : Heap) (exception : Value)
    (l : loc) (e : Response.t) :
  merge_exception_into_response exception None (st, h) = ((st, h), Return tt) ∧
  (h !! l = Some e →
   (Response.cls e = Response.Lazy → is_Some (Response.lazy_body e)) →
   let st' := <["exception" := VNone]> st in
   ∃ h',
     merge_exception_into_response (VResponse l) (Some l) (st, h)
     = ((st', h'), Return tt) ∧
     h' !! l = Some (processed st' e) ∧
     (∀ l', l' ≠ l → h' !! l' = h !! l') ∧
     Response.headers (processed st' e) = Response.headers e).
Proof.
  split; [reflexivity|].
  intros He Hlazy st'.
  unfold merge_exception_into_response. heap_simpl. rewrite He. heap_simpl.
  destruct (Response.cls e) eqn:Hcls; heap_simpl.
  - rewrite (bool_decide_true (l = l)) by done.
    eexists. split; [reflexivity|]. split; [|split].
    + rewrite lookup_insert_eq. unfold processed. simpl. by rewrite Hcls.
    + intros l' Hl'. by rewrite lookup_insert_ne.
    + apply processed_headers.
  - destruct (Hlazy eq_refl) as [f Hf]. unfold render_body. simpl.
    rewrite Hf. heap_simpl.
    rewrite (bool_decide_true (l = l)) by done.
    eexists. split; [reflexivity|]. split; [|split].
    + rewrite lookup_insert_eq. unfold processed. simpl. by rewrite Hcls, Hf.
    + intros l' Hl'. by rewrite !lookup_insert_ne.
    + apply processed_headers.
Qed.

End Properties.

(** ** The properties on the sample site *)

Lemma gateway_errors_masked_witness :
  Response.code
    (fst (overwrite_status_code_of_gateway_errors
            (Response.set_code 502 Response.new))) = 500.
Proof.
  destruct (gateway_errors_masked (Response.set_code 502 Response.new))
    as (_ & Hmask & _).
  rewrite Hmask; [reflexivity|]. left. reflexivity.
Defined.

Lemma proxy_bypass_guard_witness :
  (∃ r, reject_requests_bypassing_proxy Sample.direct_request Response.new
        = (r, Raise (ResponseExc r)) ∧
        Response.code r = 403 ∧
        Response.body r = "The request bypassed a proxy." ∧
        r = error 403 "The request bypassed a proxy." Response.new) ∧
  reject_requests_bypassing_proxy Sample.form_post Response.new
  = (Response.new, Return tt).
Proof.
  split.
  - apply (proj1 (proxy_bypass_guard Sample.direct_request Response.new)).
    + reflexivity.
    + discriminate.
  - apply (proj2 (proxy_bypass_guard Sample.form_post Response.new)).
    left. reflexivity.
Defined.

Lemma rate_limit_call_witness :
  enforce_rate_limits Sample.fr_request (mkUser (Some 5)) [] = ([], Return tt) ∧
  enforce_rate_limits Sample.form_post (mkUser (Some 5)) []
  = ([mkCall "http-unsafe.user" (KeyId 5) TooManyRequests], Return tt) ∧
  enforce_rate_limits Sample.form_post (mkUser None) []
  = ([mkCall "http-unsafe.ip-addr" (KeyAddr "203.0.113.7") TooManyRequests],
     Return tt).
Proof.
  split; [|split].
  - apply (proj1 (rate_limit_call Sample.fr_request (mkUser (Some 5)) [])).
    left. reflexivity.
  - assert (Hg : Request.method Sample.form_post ≠ "GET") by discriminate.
    assert (Hh : Request.method Sample.form_post ≠ "HEAD") by discriminate.
    exact (proj2 (rate_limit_call Sample.form_post (mkUser (Some 5)) []) Hg Hh).
  - assert (Hg : Request.method Sample.form_post ≠ "GET") by discriminate.
    assert (Hh : Request.method Sample.form_post ≠ "HEAD") by discriminate.
    exact (proj2 (rate_limit_call Sample.form_post (mkUser None) []) Hg Hh).
Defined.

Lemma callback_trailing_slash_assertion_fails_witness :
  Py.bytes_last (Py.Bytes "/callbacks/stripe/") = Some (Py.Int 47) ∧
  canonize Sample.website Sample.callback_slash
  = (Request.set_hostname "example.com" Sample.callback_slash, Raise AssertionError) ∧
  Request.line (fst (canonize Sample.website Sample.callback_slash))
  = Request.line Sample.callback_slash.
Proof.
  assert (Hhost : Headers.getitem "Host" (Request.headers Sample.callback_slash)
                  = Some "example.com") by reflexivity.
  assert (Hdec : decode_host "example.com" = Return "example.com") by reflexivity.
  assert (Hcb : Py.startswith (Request.raw (Request.path Sample.callback_slash))
                  "/callbacks/" = true) by reflexivity.
  assert (Hlast : Py.last_char (Request.raw (Request.path Sample.callback_slash))
                  = Some "/"%char) by reflexivity.
  assert (Hsplit :
    urlsplit (Request.uri_bytes (Request.uri (Request.line Sample.callback_slash)))
    = Some (Py.Bytes "", Py.Bytes "", Py.Bytes "/callbacks/stripe/",
            Py.Bytes "id=7", Py.Bytes "")) by reflexivity.
  destruct (callback_trailing_slash_assertion_fails Sample.website
              Sample.callback_slash "example.com" "example.com"
              (Py.Bytes "") (Py.Bytes "") (Py.Bytes "/callbacks/stripe/")
              (Py.Bytes "id=7") (Py.Bytes "")
              Hhost Hdec Hcb Hlast Hsplit eq_refl) as (Hitem & _ & Hrun).
  split; [exact Hitem|]. rewrite Hrun. split; reflexivity.
Defined.

Lemma malformed_host_not_redirected_witness :
  bad_scheme Sample.website Sample.malformed_host_request = true ∧
  Py.startswith (Request.raw (Request.path Sample.malformed_host_request))
    "/callbacks/" = false ∧
  canonize Sample.website Sample.malformed_host_request
  = (Sample.malformed_host_request, Raise UnicodeError).
Proof.
  assert (Hhost : Headers.getitem "Host" (Request.headers Sample.malformed_host_request)
                  = Some "xn--a") by reflexivity.
  assert (Hdec : idna_decode "xn--a" = CodecError) by reflexivity.
  split; [reflexivity|]. split; [reflexivity|].
  exact (malformed_host_not_redirected Sample.website Sample.malformed_host_request
           "xn--a" Hhost Hdec).
Defined.

Lemma sample_locales_encode (l : string) :
  l ∈ locales Sample.website → is_Some (idna_encode l).
Proof.
  unfold Sample.website. simpl.
  intros [->%elem_of_singleton | ->%elem_of_singleton]%elem_of_union; by eexists.
Qed.

Lemma locale_subdomain_hint_witness :
  bad_host Sample.website "fr.example.com" = false ∧
  snd (canonize Sample.website Sample.fr_request) = Return tt ∧
  Headers.all "Accept-Language"
    (Request.headers (fst (canonize Sample.website Sample.fr_request)))
  = ["fr,en"] ∧
  snd (canonize Sample.website Sample.fr_http_request)
  = Raise (ResponseExc (redirect_response "https://fr.example.com/about?x=1")).
Proof.
  assert (Hloc : "fr" ∈ locales Sample.website)
    by (apply elem_of_union_l, elem_of_singleton; reflexivity).
  assert (Hch : canonical_host Sample.website ≠ "") by discriminate.
  assert (Hhost : Headers.getitem "Host" (Request.headers Sample.fr_request)
                  = Some "fr.example.com") by reflexivity.
  assert (Hhost' : Headers.getitem "Host" (Request.headers Sample.fr_http_request)
                   = Some "fr.example.com") by reflexivity.
  assert (Hdec : idna_decode "fr.example.com"
                 = Decoded ("fr" +:+ "." +:+ canonical_host Sample.website))
    by reflexivity.
  assert (Henc : idna_encode "fr" = Some "fr") by reflexivity.
  assert (Hcb : Py.startswith (Request.raw (Request.path Sample.fr_request))
                  "/callbacks/" = false) by reflexivity.
  assert (Hcb' : Py.startswith (Request.raw (Request.path Sample.fr_http_request))
                   "/callbacks/" = false) by reflexivity.
  destruct (locale_subdomain_hint Sample.website Sample.fr_request
              "fr.example.com" "fr" "fr" Hhost Hdec Hloc Henc Hcb Hch)
    as (Hbh & Hgood & _).
  destruct (locale_subdomain_hint Sample.website Sample.fr_http_request
              "fr.example.com" "fr" "fr" Hhost' Hdec Hloc Henc Hcb' Hch)
    as (_ & _ & Hredirect).
  split; [exact Hbh|].
  rewrite Hgood by reflexivity. rewrite Hredirect by reflexivity.
  repeat split; reflexivity.
Defined.

(** The statement of the specification fails on a callback path, on a
    request whose forwarded scheme is not the canonical one, and on a site
    without canonical host. *)
Lemma locale_hint_counterexample :
  ¬ locale_hint_stated Sample.website Sample.fr_callback_request ∧
  ¬ locale_hint_stated Sample.website Sample.fr_http_request ∧
  ¬ locale_hint_stated Sample.open_website Sample.fr_dot_request.
Proof.
  assert (Hloc : "fr" ∈ ({[ "fr"; "de" ]} : gset string))
    by (apply elem_of_union_l, elem_of_singleton; reflexivity).
  split; [|split]; intros Hstated.
  - destruct (Hstated "fr.example.com" "fr" eq_refl eq_refl Hloc)
      as (enc & request' & Henc & Hrun & Hlang).
    vm_compute in Hrun. injection Hrun as <-.
    vm_compute in Hlang. discriminate.
  - destruct (Hstated "fr.example.com" "fr" eq_refl eq_refl Hloc)
      as (enc & request' & Henc & Hrun & Hlang).
    vm_compute in Hrun. discriminate.
  - destruct (Hstated "fr." "fr" eq_refl eq_refl Hloc)
      as (enc & request' & Henc & Hrun & Hlang).
    vm_compute in Hrun. injection Hrun as <-.
    vm_compute in Hlang. discriminate.
Qed.

Lemma csp_bypass_for_redirects_witness :
  bypass_csp_for_form_redirects ∅ Sample.website (Some Sample.form_post)
    Sample.internal_redirect
  = (Sample.internal_redirect, Return tt) ∧
  ∃ h',
    Headers.pop "Location" (Sample.headers_of [("Location", "https://evil.example/x")])
    = Some ("https://evil.example/x", h') ∧
    Headers.all "Location" h' = [] ∧
    bypass_csp_for_form_redirects ∅ Sample.website (Some Sample.form_post)
      Sample.external_redirect
    = (Response.set_body "refresh: https://evil.example/x"
         (Response.set_headers (Some h')
            (Response.set_code 200 Sample.external_redirect)),
       Return tt).
Proof.
  destruct (csp_bypass_for_redirects ∅ Sample.website Sample.form_post
              Sample.internal_redirect) as (_ & _ & Hint).
  destruct (csp_bypass_for_redirects ∅ Sample.website Sample.form_post
              Sample.external_redirect) as (_ & _ & Hext).
  split.
  - apply (proj1 (Hint (Sample.headers_of [("Location", "/local/path")])
                    "/local/path" eq_refl eq_refl eq_refl)).
    left. reflexivity.
  - destruct (proj2 (Hext (Sample.headers_of [("Location", "https://evil.example/x")])
                       "https://evil.example/x" eq_refl eq_refl eq_refl)
                "https" "mysite.com" "https://evil.example/x"
                eq_refl eq_refl eq_refl) as (h' & Hpop & Hall & _ & Hrun).
    + intros [Hs|[Hs|(rq & sch & host & [= <-] & Hsch & Hhost & Hs)]];
        [discriminate Hs|discriminate Hs|].
      vm_compute in Hsch. injection Hsch as <-.
      vm_compute in Hhost. injection Hhost as <-.
      discriminate Hs.
    + exists h'. split; [exact Hpop|]. split; [exact Hall|]. exact Hrun.
Defined.

(** The statement of the specification fails when there is no request: an
    external redirect is then left as it is. *)
Lemma csp_bypass_counterexample :
  ¬ csp_bypass_stated ∅ Sample.website None Sample.external_redirect.
Proof.
  intros Hstated.
  destruct (Hstated (Sample.headers_of [("Location", "https://evil.example/x")])
              "https://evil.example/x" eq_refl eq_refl eq_refl) as [_ Hext].
  destruct Hext as (response' & h' & Hrun & Hcode & _).
  - intros [Hs|[Hs|(rq & sch & host & Hrq & _)]]; discriminate.
  - simpl in Hrun. injection Hrun as <-. discriminate Hcode.
Qed.

Lemma exception_merged_into_response_witness :
  ∃ st' h' r' rh',
    merge_exception_into_response (VResponse 2%positive) (Some 1%positive)
      (Sample.state, Sample.heap)
    = ((st', h'), Return tt) ∧
    st' !! "exception" = Some VNone ∧
    h' !! 1%positive = Some r' ∧
    Response.headers r' = Some rh' ∧
    Headers.cookie rh' !! "session" = Some "new" ∧
    Headers.cookie rh' !! "lang" = Some "en" ∧
    Headers.all "Vary" rh' = ["Cookie"; "Accept"] ∧
    Headers.all "Location" rh' = ["/login"].
Proof.
  assert (Hne : (2 ≠ 1)%positive) by discriminate.
  assert (Hlazy : Response.cls Sample.raised_response = Response.Lazy →
                  is_Some (Response.lazy_body Sample.raised_response))
    by (intros _; eexists; reflexivity).
  destruct (exception_merged_into_response Sample.state Sample.heap
              2%positive 1%positive
              Sample.raised_response Sample.held_response
              (default Headers.empty (Response.headers Sample.raised_response))
              (default Headers.empty (Response.headers Sample.held_response))
              Hne eq_refl eq_refl eq_refl eq_refl Hlazy)
    as (st' & h' & r' & rh' & Hrun & Hexc & Hr' & Hrh' & Hwin & Hkeep & Hall).
  exists st', h', r', rh'.
  split; [exact Hrun|]. split; [exact Hexc|]. split; [exact Hr'|].
  split; [exact Hrh'|]. split; [|split; [|split]].
  - apply Hwin. reflexivity.
  - rewrite Hkeep by reflexivity. reflexivity.
  - rewrite Hall. reflexivity.
  - rewrite Hall. reflexivity.
Defined.

Lemma exception_is_response_witness :
  merge_exception_into_response (VResponse 2%positive) None
    (Sample.bare_state, Sample.heap)
  = ((Sample.bare_state, Sample.heap), Return tt) ∧
  ∃ h',
    merge_exception_into_response (VResponse 2%positive) (Some 2%positive)
      (Sample.bare_state, Sample.heap)
    = ((<["exception" := VNone]> Sample.bare_state, h'), Return tt) ∧
    Response.body <$> (h' !! 2%positive) = Some "Please log in" ∧
    Response.headers <$> (h' !! 2%positive)
    = Some (Response.headers Sample.raised_response) ∧
    h' !! 1%positive = Some Sample.held_response.
Proof.
  assert (Hlazy : Response.cls Sample.raised_response = Response.Lazy →
                  is_Some (Response.lazy_body Sample.raised_response))
    by (intros _; eexists; reflexivity).
  destruct (exception_is_response Sample.bare_state Sample.heap
              (VResponse 2%positive) 2%positive Sample.raised_response)
    as [Hnone Hsame].
  split; [exact Hnone|].
  destruct (Hsame eq_refl Hlazy) as (h' & Hrun & Hobj & Hother & Hheaders).
  exists h'. split; [exact Hrun|].
  specialize (Hother 1%positive ltac:(discriminate)).
  unfold loc in *. rewrite Hobj, Hother. repeat split; reflexivity.
Defined.

(** The statement of the specification fails on a state that holds a
    raised response and no response object: the entry is not cleared. *)
Lemma no_response_counterexample :
  ¬ no_response_stated Sample.bare_state Sample.heap 2%positive.
Proof.
  intros (st' & h' & Hrun & Hexc).
  simpl in Hrun. injection Hrun as <- <-.
  vm_compute in Hexc. discriminate.
Qed.

(** ** Further properties of the steps *)

Section MoreProperties.

Context `{!Externals} `{!Platform}.

(** *** Canonicalization *)

(** Decoding the Host header gives a hostname or stops with UnicodeError. *)
Lemma decode_host_cases (raw_host : string) :
  (∃ host, decode_host raw_host = Return host)
  ∨ (decode_host raw_host = Raise UnicodeError ∧ idna_decode raw_host = CodecError).
Proof.
  unfold decode_host. destruct (idna_decode raw_host); [left; by eexists..|by right].
Qed.

Lemma last_char_is_Some (s : string) : s ≠ "" → is_Some (Py.last_char s).
Proof.
  unfold Py.last_char. induction s as [|a s IH]; simpl; [done|]. intros _.
  destruct s as [|b s']; simpl in *; [by eexists|]. by apply IH.
Qed.

(** X1. Outside the callback paths, a request on the canonical scheme whose
    host is not bad is not redirected: canonicalization returns, having
    recorded the hostname; the request line is untouched and no header
    other than Accept-Language is changed. The host is what the Host header
    decodes to, the empty text after a UnicodeDecodeError. *)
Theorem good_origin_not_redirected (website : Website) (request : Request.t)
    (raw_host host : string) :
  Headers.getitem "Host" (Request.headers request) = Some raw_host →
  decode_host raw_host = Return host →
  Py.startswith (Request.raw (Request.path request)) "/callbacks/" = false →
  (∀ l, l ∈ locales website → is_Some (idna_encode l)) →
  bad_scheme website request = false →
  bad_host website host = false →
  ∃ request',
    canonize website request = (request', Return tt) ∧
    Request.hostname request' = Some host ∧
    Request.line request' = Request.line request ∧
    (∀ k, k ≠ "Accept-Language" →
          Headers.all k (Request.headers request')
          = Headers.all k (Request.headers request)).
Proof.
  intros Hh Hdec Hcb Henc Hs Hb.
  unfold canonize. step_unfold. simpl. rewrite Hh. simpl. rewrite Hdec. simpl.
  rewrite Hcb. fold (bad_scheme website request). rewrite Hs.
  unfold bad_host, subdomain_of in Hb.
  destruct (Py.truthy (canonical_host website)); simpl in *.
  - destruct (bool_decide (host = canonical_host website)); simpl in *.
    + eexists. repeat split.
    + destruct (Py.endswith host _); simpl in *; [|discriminate].
      destruct (bool_decide_reflect
                  (Py.drop_last (String.length (canonical_host website) + 1) host
                   ∈ locales website)) as [Hloc|Hloc]; simpl in *; [|discriminate].
      destruct (Henc _ Hloc) as [enc Hencs]. rewrite Hencs. simpl.
      eexists. repeat split. intros k Hk. simpl.
      unfold Headers.all, Headers.setitem, Headers.map_fields, Mapping.all,
        Mapping.setitem. simpl. by rewrite lookup_insert_ne.
  - eexists. repeat split.
Qed.

(** X2. A request on a callback path is never redirected, whatever its
    host and scheme: canonicalization raises no response and leaves the
    headers as they are. It records the hostname when the Host header
    decodes or fails to with UnicodeDecodeError; when decoding fails with
    another UnicodeError the step stops with it, the request untouched. *)
Theorem callbacks_never_redirected (website : Website) (request : Request.t)
    (raw_host : string) :
  Headers.getitem "Host" (Request.headers request) = Some raw_host →
  Py.startswith (Request.raw (Request.path request)) "/callbacks/" = true →
  (∀ r, snd (canonize website request) ≠ Raise (ResponseExc r)) ∧
  Request.headers (fst (canonize website request)) = Request.headers request ∧
  (∀ host, decode_host raw_host = Return host →
           Request.hostname (fst (canonize website request)) = Some host) ∧
  (idna_decode raw_host = CodecError →
   canonize website request = (request, Raise UnicodeError)).
Proof.
  intros Hh Hcb.
  unfold canonize. step_unfold. simpl. rewrite Hh. simpl.
  destruct (decode_host_cases raw_host) as [[host Hdec] | [Hdec Hcodec]];
    rewrite Hdec; simpl.
  2:{ repeat split; [done|]. intros host. discriminate. }
  assert (Hno : idna_decode raw_host = CodecError → False).
  { intros Hc. rewrite (decode_host_uncaught _ Hc) in Hdec. discriminate. }
  rewrite Hcb.
  assert (Hhost : ∀ host', Return (A:=string) host = Return host' → Some host = Some host')
    by (by intros host' [= ->]).
  destruct (Py.str_last (Request.raw (Request.path request))) as [c|]; simpl;
    [|by repeat split; auto].
  destruct (Py.eq c (Py.Str "/")); simpl; [|by repeat split; auto].
  destruct (urlsplit _) as [[[[[scheme netloc] path] query] fragment]|]; simpl;
    [|by repeat split; auto].
  destruct (Py.bytes_last path) as [c'|]; simpl; [|by repeat split; auto].
  destruct (Py.eq c' (Py.Str "/")); simpl; by repeat split; auto.
Qed.

(** X3. On a callback path that does not end with a slash, canonicalization
    only records the hostname. *)
Theorem callback_without_slash_kept (website : Website) (request : Request.t)
    (raw_host host : string) (c : ascii) :
  Headers.getitem "Host" (Request.headers request) = Some raw_host →
  decode_host raw_host = Return host →
  Py.startswith (Request.raw (Request.path request)) "/callbacks/" = true →
  Py.last_char (Request.raw (Request.path request)) = Some c →
  c ≠ "/"%char →
  canonize website request = (Request.set_hostname host request, Return tt).
Proof.
  intros Hh Hdec Hcb Hlast Hc.
  unfold canonize. step_unfold. simpl. rewrite Hh. simpl. rewrite Hdec. simpl.
  rewrite Hcb. unfold Py.str_last. rewrite Hlast. simpl.
  by rewrite (proj2 (Ascii.eqb_neq _ _) Hc).
Qed.

(** X4. A callback request whose path ends with a slash never gets its line
    rebuilt: canonicalization never returns on it. It stops with ValueError
    when the target does not split, with IndexError when the split path is
    empty, and with AssertionError in every other case, since the last item
    of the split path is a number and the sanity check compares it with a
    text. The hostname is recorded and nothing else is changed. *)
Theorem callback_sanity_check_fails (website : Website) (request : Request.t)
    (raw_host host : string) :
  Headers.getitem "Host" (Request.headers request) = Some raw_host →
  decode_host raw_host = Return host →
  Py.startswith (Request.raw (Request.path request)) "/callbacks/" = true →
  Py.last_char (Request.raw (Request.path request)) = Some "/"%char →
  let kept := Request.set_hostname host request in
  let target := Request.uri_bytes (Request.uri (Request.line request)) in
  (urlsplit target = None → canonize website request = (kept, Raise ValueError)) ∧
  (∀ scheme netloc path query fragment,
     urlsplit target = Some (scheme, netloc, path, query, fragment) →
     Py.octets path = "" →
     canonize website request = (kept, Raise IndexError)) ∧
  (∀ scheme netloc path query fragment,
     urlsplit target = Some (scheme, netloc, path, query, fragment) →
     Py.octets path ≠ "" →
     canonize website request = (kept, Raise AssertionError)) ∧
  fst (canonize website request) = kept ∧
  snd (canonize website request) ≠ Return tt.
Proof.
  intros Hh Hdec Hcb Hlast kept target.
  assert (Hrun : canonize website request =
    (kept,
     match urlsplit target with
     | None => Raise ValueError
     | Some (_, _, path, _, _) =>
         match Py.bytes_last path with
         | None => Raise IndexError
         | Some _ => Raise AssertionError
         end
     end)).
  { unfold canonize. step_unfold. simpl. rewrite Hh. simpl. rewrite Hdec. simpl.
    rewrite Hcb, (str_last_slash _ Hlast). simpl. fold target.
    destruct (urlsplit target) as [[[[[scheme netloc] path] query] fragment]|];
      simpl; [|done].
    destruct (Py.bytes_last path) as [v|] eqn:Hitem; simpl; [|done].
    by rewrite (bytes_last_not_text _ _ _ Hitem). }
  rewrite Hrun. repeat split.
  - by intros ->.
  - intros scheme netloc path query fragment -> Hempty.
    unfold Py.bytes_last. by rewrite Hempty.
  - intros scheme netloc path query fragment -> Hpath.
    unfold Py.bytes_last.
    by destruct (last_char_is_Some _ Hpath) as [c ->].
  - simpl. destruct (urlsplit target) as [[[[[scheme netloc] path] query] fragment]|];
      [|done].
    by destruct (Py.bytes_last path).
Qed.

(** X5. A Host header whose decoding raises UnicodeDecodeError (it has a
    byte outside ASCII) counts as the empty hostname: outside the callback
    paths and with a canonical host configured, the request is redirected
    to the canonical host, its headers untouched. *)
Theorem undecodable_host_redirected (website : Website) (request : Request.t)
    (raw_host : string) :
  Headers.getitem "Host" (Request.headers request) = Some raw_host →
  idna_decode raw_host = DecodeError →
  Py.startswith (Request.raw (Request.path request)) "/callbacks/" = false →
  canonical_host website ≠ "" →
  canonize website request
  = (Request.set_hostname "" request,
     Raise (ResponseExc
              (redirect_response
                 (canonical_scheme website +:+ "://" +:+ canonical_host website
                  +:+ path_and_query request)))).
Proof.
  intros Hh Hdec Hcb Hch.
  unfold canonize. step_unfold. simpl. rewrite Hh. simpl.
  rewrite (decode_host_caught _ Hdec). simpl. rewrite Hcb.
  simpl. rewrite truthy_nonempty by done.
  rewrite (bool_decide_false ("" = canonical_host website)) by done.
  simpl. rewrite orb_true_r.
  by rewrite redirect_url_path_and_query, !app_assoc_str.
Qed.

(** X6. Whenever canonicalization raises a response, it is the redirect to
    the canonical scheme on either the canonical host or the host of the
    request, the latter only when that host is not bad; the request is not
    on a callback path. *)
Theorem redirect_authority_trusted (website : Website) (request request' : Request.t)
    (r : Response.t) :
  canonize website request = (request', Raise (ResponseExc r)) →
  ∃ authority,
    r = redirect_response
          (canonical_scheme website +:+ "://" +:+ authority
           +:+ path_and_query request) ∧
    (authority = canonical_host website ∨
     Request.hostname request' = Some authority ∧
     bad_host website authority = false) ∧
    Py.startswith (Request.raw (Request.path request)) "/callbacks/" = false.
Proof.
  unfold canonize. step_unfold. simpl.
  destruct (Headers.getitem "Host" (Request.headers request)) as [raw_host|];
    simpl; [|discriminate].
  destruct (decode_host_cases raw_host) as [[host ->] | [-> _]]; simpl;
    [|discriminate].
  destruct (Py.startswith _ "/callbacks/") eqn:Hcb.
  { destruct (Py.str_last _) as [c|]; simpl; [|discriminate].
    destruct (Py.eq c (Py.Str "/")); simpl; [|discriminate].
    destruct (urlsplit _) as [[[[[scheme netloc] path] query] fragment]|]; simpl;
      [|discriminate].
    destruct (Py.bytes_last path) as [c'|]; simpl; [|discriminate].
    destruct (Py.eq c' (Py.Str "/")); simpl; discriminate. }
  fold (bad_scheme website request).
  unfold bad_host, subdomain_of.
  destruct (Py.truthy (canonical_host website)) eqn:Htruthy; simpl.
  - destruct (bool_decide (host = canonical_host website)) eqn:Heq; simpl.
    + destruct (bad_scheme website request); simpl; [|discriminate].
      rewrite redirect_url_path_and_query, !app_assoc_str. intros [= <- <-].
      exists host. split; [done|]. split; [|done]. right. split; [done|].
      simpl. by rewrite ?Htruthy, ?Heq.
    + destruct (Py.endswith host _) eqn:Hends; simpl.
      * destruct (bool_decide
                    (Py.drop_last (String.length (canonical_host website) + 1) host
                     ∈ locales website)) eqn:Hloc; simpl.
        -- destruct (idna_encode _) as [enc|]; simpl; [|discriminate].
           destruct (bad_scheme website request); simpl; [|discriminate].
           rewrite redirect_url_path_and_query, !app_assoc_str. intros [= <- <-].
           exists host. split; [done|]. split; [|done]. right. split; [done|].
           simpl. by rewrite ?Htruthy, ?Heq, ?Hends, ?Hloc.
        -- rewrite orb_true_r.
           rewrite redirect_url_path_and_query, !app_assoc_str. intros [= <- <-].
           exists (canonical_host website). split; [done|]. split; [by left|done].
      * rewrite orb_true_r.
        rewrite redirect_url_path_and_query, !app_assoc_str. intros [= <- <-].
        exists (canonical_host website). split; [done|]. split; [by left|done].
  - destruct (bad_scheme website request); simpl; [|discriminate].
    rewrite redirect_url_path_and_query, !app_assoc_str. intros [= <- <-].
    exists host. split; [done|]. split; [|done]. right. split; [done|].
    simpl. by rewrite ?Htruthy.
Qed.

(** X7. Whatever canonicalization does to a request that has a Host header
    (return, redirect or failure), it never changes the method, the path,
    the source address, the proxy flag or the request line: the one branch
    that rebuilds the line lies behind the sanity check of line 50, which a
    byte string never passes. The hostname is recorded whenever the Host
    header decodes or fails to with UnicodeDecodeError (the empty text
    then); after any other UnicodeError the request is left as it was. *)
Theorem canonize_keeps_identity (website : Website) (request : Request.t)
    (raw_host : string) :
  Headers.getitem "Host" (Request.headers request) = Some raw_host →
  let request' := fst (canonize website request) in
  Request.method request' = Request.method request ∧
  Request.path request' = Request.path request ∧
  Request.source request' = Request.source request ∧
  Request.bypasses_proxy request' = Request.bypasses_proxy request ∧
  Request.line request' = Request.line request ∧
  (∀ host, decode_host raw_host = Return host →
           Request.hostname request' = Some host) ∧
  (idna_decode raw_host = CodecError → request' = request).
Proof.
  intros Hh. unfold canonize. step_unfold. simpl. rewrite Hh. simpl.
  destruct (decode_host_cases raw_host) as [[host Hdec] | [Hdec Hcodec]];
    rewrite Hdec; simpl.
  2:{ repeat split. intros host. discriminate. }
  assert (Hhost : ∀ host', Return (A:=string) host = Return host' → Some host = Some host')
    by (by intros host' [= ->]).
  assert (Hno : idna_decode raw_host = CodecError → False).
  { intros Hc. rewrite (decode_host_uncaught _ Hc) in Hdec. discriminate. }
  destruct (Py.startswith _ "/callbacks/").
  { destruct (Py.str_last _) as [c|]; simpl; [|by repeat split; auto].
    destruct (Py.eq c (Py.Str "/")); simpl; [|by repeat split; auto].
    destruct (urlsplit _) as [[[[[scheme netloc] path] query] fragment]|]; simpl;
      [|by repeat split; auto].
    destruct (Py.bytes_last path) as [c'|] eqn:Hitem; simpl;
      [|by repeat split; auto].
    rewrite (bytes_last_not_text _ _ _ Hitem). simpl. by repeat split; auto. }
  destruct (Py.truthy (canonical_host website)); simpl.
  - destruct (bool_decide (_ = canonical_host website)); simpl.
    + destruct (bool_decide _); simpl; by repeat split; auto.
    + destruct (Py.endswith _ _); simpl.
      * destruct (bool_decide (_ ∈ locales website)); simpl.
        -- destruct (idna_encode _) as [enc|]; simpl; [|by repeat split; auto].
           destruct (bool_decide _); simpl; by repeat split; auto.
        -- rewrite orb_true_r. by repeat split; auto.
      * rewrite orb_true_r. by repeat split; auto.
  - destruct (bool_decide _); simpl; by repeat split; auto.
Qed.

(** X24. For a request outside the callback paths whose Host header decodes
    (or fails to with UnicodeDecodeError, the host then being the empty
    text) and whose scheme or host is bad, canonicalization raises a
    redirect (302) to the canonical scheme and the canonical host, or the
    request's own host when that host is not bad. For a safe method the
    target goes on with the decoded path of the request and, when the raw
    query is not empty, "?" and the decoded query; for any other method it
    goes on with "/" only. The redirect carries Cache-Control
    "public, max-age=86400". Every configured locale has an IDNA encoding. *)
Theorem bad_origin_redirected (website : Website) (request : Request.t)
    (raw_host host : string) :
  Headers.getitem "Host" (Request.headers request) = Some raw_host →
  decode_host raw_host = Return host →
  Py.startswith (Request.raw (Request.path request)) "/callbacks/" = false →
  (∀ l, l ∈ locales website → is_Some (idna_encode l)) →
  bad_scheme website request = true ∨ bad_host website host = true →
  let authority := if bad_host website host then canonical_host website else host in
  let uri := Request.uri (Request.line request) in
  let query := Request.uri_querystring uri in
  let tail :=
    if bool_decide (Request.method request ∈ SAFE_METHODS)
    then Request.decoded (Request.uri_path uri)
         +:+ (if bool_decide (Request.qs_raw query = "")
              then ""
              else "?" +:+ Request.qs_decoded query)
    else "/" in
  let url := canonical_scheme website +:+ "://" +:+ authority +:+ tail in
  ∃ request' response headers,
    canonize website request = (request', Raise (ResponseExc response)) ∧
    Request.hostname request' = Some host ∧
    Response.code response = 302 ∧
    Response.headers response = Some headers ∧
    Headers.all "Location" headers = [encode_url url] ∧
    Headers.all "Cache-Control" headers = ["public, max-age=86400"].
Proof.
  intros Hh Hdec Hcb Henc Hbad authority uri query tail url.
  destruct (canonize_redirects website request raw_host host Hh Hdec Hcb Henc)
    as (request' & Hc & Hn).
  { destruct Hbad as [-> | ->]; [done|apply orb_true_r]. }
  exists request'. eexists. eexists. split; [exact Hc|]. split; [exact Hn|].
  assert (path_and_query request = tail) as ->.
  { unfold path_and_query, tail. case_bool_decide; [|done].
    fold uri. fold query. unfold Request.qs_truthy.
    destruct (Request.qs_raw query) as [|c q]; simpl.
    - generalize (Request.decoded (Request.uri_path uri)).
      intros p. induction p as [|c p IH]; [done|]. rewrite app_String. by f_equal.
    - done. }
  repeat split.
Qed.

(** *** Merging an exception into the response *)

Ltac heap_simpl :=
  repeat (step_unfold; unfold load, store, set_state; simpl;
          rewrite ?lookup_insert_eq, ?lookup_insert_ne by done; simpl).

(** X8. When a response-exception is merged into a distinct response, the
    response takes over the exception's code, its body (rendered for a lazy
    exception), its provenance and its other attributes, those of the
    exception winning by name; the response keeps its class. The exception
    object is left without headers, and no other object is touched. *)
Theorem merged_response_takes_over (st : State) (h : Heap) (le lr : loc)
    (e r : Response.t) (eh rh : Headers.t) :
  le ≠ lr →
  h !! le = Some e →
  h !! lr = Some r →
  Response.headers e = Some eh →
  Response.headers r = Some rh →
  (Response.cls e = Response.Lazy → is_Some (Response.lazy_body e)) →
  let st' := <["exception" := VNone]> st in
  ∃ h' r' e',
    merge_exception_into_response (VResponse le) (Some lr) (st, h)
    = ((st', h'), Return tt) ∧
    h' !! lr = Some r' ∧
    h' !! le = Some e' ∧
    Response.code r' = Response.code e ∧
    Response.body r' = Response.body (processed st' e) ∧
    Response.whence_raised r' = Some whence ∧
    Response.attrs r' = Response.attrs e ∪ Response.attrs r ∧
    Response.cls r' = Response.cls r ∧
    Response.headers e' = None ∧
    (∀ l, l ≠ le → l ≠ lr → h' !! l = h !! l).
Proof.
  intros Hne He Hr Heh Hrh Hlazy st'.
  assert (Hne' : lr ≠ le) by done.
  unfold merge_exception_into_response. heap_simpl. rewrite He. heap_simpl.
  destruct (Response.cls e) eqn:Hcls; heap_simpl.
  - rewrite (bool_decide_false (le = lr)) by done. heap_simpl.
    rewrite Hr. heap_simpl. rewrite Hrh, Heh. heap_simpl.
    eexists _, _, _. split; [reflexivity|].
    split; [apply lookup_insert_eq|].
    split; [by rewrite !(lookup_insert_ne _ lr le), lookup_insert_eq|].
    unfold processed. simpl. rewrite Hcls. repeat split.
    intros l Hl Hl'. by rewrite !lookup_insert_ne.
  - destruct (Hlazy eq_refl) as [f Hf]. unfold render_body. simpl.
    rewrite Hf. heap_simpl.
    rewrite (bool_decide_false (le = lr)) by done. heap_simpl.
    rewrite Hr. heap_simpl. rewrite Hrh, Heh. heap_simpl.
    eexists _, _, _. split; [reflexivity|].
    split; [apply lookup_insert_eq|].
    split; [by rewrite !(lookup_insert_ne _ lr le), lookup_insert_eq|].
    unfold processed. simpl. rewrite Hcls, Hf. repeat split.
    intros l Hl Hl'. by rewrite !lookup_insert_ne.
Qed.

(** *** Socket errors *)

Lemma lower_app (a b : string) : Py.lower (a +:+ b) = Py.lower a +:+ Py.lower b.
Proof. induction a as [|c a IH]; [done|]. rewrite app_String. simpl. by rewrite IH. Qed.

Lemma prefix_app (s b : string) : String.prefix s (s +:+ b) = true.
Proof.
  apply String.prefix_correct. apply substring_app_l.
Qed.

Lemma index_of_prefix (sub s : string) :
  String.prefix sub s = true → ∃ n, String.index 0 sub s = Some n.
Proof.
  intros Hp. destruct s as [|x t].
  - destruct sub; [by exists O|discriminate].
  - exists O. simpl in *. by rewrite Hp.
Qed.

Lemma contains_app (sub a b : string) : Py.contains sub (a +:+ sub +:+ b) = true.
Proof.
  unfold Py.contains.
  assert (Hidx : ∃ n, String.index 0 sub (a +:+ sub +:+ b) = Some n).
  { induction a as [|c a [n IH]].
    - change ("" +:+ sub +:+ b) with (sub +:+ b).
      apply index_of_prefix, prefix_app.
    - rewrite app_String. simpl String.index.
      match goal with |- context [if ?t then _ else _] => destruct t end;
        [by exists O|].
      rewrite IH. by eexists. }
  destruct Hidx as [n ->]. reflexivity.
Qed.

(** X9. For an exception raised from another one, the word "timeout" in
    any letter case anywhere in the text of the cause gives a 504 response
    with the translated message, whatever the class of the cause: also for
    a connection failure, which would otherwise give 502. *)
Theorem timeout_text_any_case (tr : string → string) (e c : PyExn)
    (response : option Response.t) (before word after : string) :
  exn_cause e = CausedBy c →
  exn_str c = before +:+ word +:+ after →
  Py.lower word = "timeout" →
  turn_socket_error_into_50X tr e response =
    Some (mkUpdate (Response.set_body (tr socket_error_message)
                      (Response.set_code 504 (default Response.new response))) VNone).
Proof.
  intros Hc Hs Hw. apply (caused_timeout_504 tr e c response Hc). right.
  rewrite Hs, !lower_app, Hw. apply contains_app.
Qed.

(** X10. Whenever the socket-error step returns something, the exception
    entry is cleared, the response has code 504 or 502 and the translated
    message as body, and it is the response it was given (a new one when
    it was given none) with its headers and attributes as they were. *)
Theorem socket_error_response_shape (tr : string → string) (e : PyExn)
    (response : option Response.t) (u : Update) :
  turn_socket_error_into_50X tr e response = Some u →
  upd_exception u = VNone ∧
  (Response.code (upd_response u) = 504 ∨ Response.code (upd_response u) = 502) ∧
  Response.body (upd_response u) = tr socket_error_message ∧
  Response.headers (upd_response u) = Response.headers (default Response.new response) ∧
  Response.attrs (upd_response u) = Response.attrs (default Response.new response) ∧
  Response.cls (upd_response u) = Response.cls (default Response.new response).
Proof.
  unfold turn_socket_error_into_50X.
  destruct (_ || _); [intros [= <-]; simpl; auto 10|].
  destruct (_ || _); [intros [= <-]; simpl; auto 10|discriminate].
Qed.

(** X11. A response produced by the socket-error step leaves the chain
    with code 500: the masking step rewrites its 502 or 504 and keeps the
    translated message. *)
Theorem socket_error_shown_as_500 (tr : string → string) (e : PyExn)
    (response : option Response.t) (u : Update) :
  turn_socket_error_into_50X tr e response = Some u →
  overwrite_status_code_of_gateway_errors (upd_response u)
  = (Response.set_code 500 (upd_response u), Return tt) ∧
  Response.body (Response.set_code 500 (upd_response u)) = tr socket_error_message.
Proof.
  unfold turn_socket_error_into_50X, overwrite_status_code_of_gateway_errors.
  step_unfold.
  destruct (_ || _); [intros [= <-]; simpl; auto|].
  destruct (_ || _); [intros [= <-]; simpl; auto|discriminate].
Qed.

(** *** Redirects and the content security policy *)

(** X12. A 302 response without a Location header makes the CSP step fail
    on the missing name, the response untouched. *)
Theorem redirect_without_location (state : State) (website : Website)
    (rq : Request.t) (response : Response.t) (h : Headers.t) :
  Response.code response = 302 →
  Response.headers response = Some h →
  Headers.getitem "Location" h = None →
  bypass_csp_for_form_redirects state website (Some rq) response
  = (response, Raise (MissingKey "Location")).
Proof.
  intros Hc Hh Ht. unfold bypass_csp_for_form_redirects. step_unfold. simpl.
  rewrite Hc, Hh. simpl. by rewrite Ht.
Qed.

(** X13. For a 302 whose target starts with neither "/" nor ".", the Host
    header of the request is needed: without it the CSP step fails on the
    missing name before it changes anything, so the response is still the
    302 with its Location. A target starting with "/" or "." passes without
    the header being read. *)
Theorem redirect_check_needs_host (state : State) (website : Website)
    (rq : Request.t) (response : Response.t) (h : Headers.t)
    (target scheme : string) :
  Response.code response = 302 →
  Response.headers response = Some h →
  Headers.getitem "Location" h = Some target →
  Headers.getitem "Host" (Request.headers rq) = None →
  Py.encode_ascii (canonical_scheme website) = Some scheme →
  (Py.startswith target "/" = true ∨ Py.startswith target "." = true →
   bypass_csp_for_form_redirects state website (Some rq) response
   = (response, Return tt)) ∧
  (Py.startswith target "/" = false → Py.startswith target "." = false →
   bypass_csp_for_form_redirects state website (Some rq) response
   = (response, Raise (MissingKey "Host"))).
Proof.
  intros Hc Hh Ht Hhost Hsch. split.
  - intros Hint. unfold bypass_csp_for_form_redirects. step_unfold. simpl.
    rewrite Hc, Hh. simpl. rewrite Ht. step_unfold. simpl.
    rewrite bool_decide_true; [done|]. by apply take1_in.
  - intros Hs Hd. unfold bypass_csp_for_form_redirects. step_unfold. simpl.
    rewrite Hc, Hh. simpl. rewrite Ht. step_unfold. simpl.
    rewrite bool_decide_false.
    2:{ rewrite take1_in. intros [Hx|Hx]; congruence. }
    rewrite Hsch. step_unfold. simpl. by rewrite Hhost.
Qed.

(** X14. An external target that is not 7-bit text makes the CSP step fail
    with UnicodeDecodeError after the response has been changed: its code
    is already 200 and the Location value already popped. *)
Theorem redirect_target_not_ascii (state : State) (website : Website)
    (rq : Request.t) (response : Response.t) (h : Headers.t)
    (target : string) :
  Response.code response = 302 →
  Response.headers response = Some h →
  Headers.getitem "Location" h = Some target →
  ¬ internal_target website (Some rq) target →
  is_Some (Py.encode_ascii (canonical_scheme website)) →
  is_Some (Headers.getitem "Host" (Request.headers rq)) →
  Py.decode_ascii target = None →
  ∃ h',
    Headers.pop "Location" h = Some (target, h') ∧
    bypass_csp_for_form_redirects state website (Some rq) response
    = (Response.set_headers (Some h') (Response.set_code 200 response),
       Raise UnicodeDecodeError).
Proof.
  intros Hc Hh Ht Hext [scheme Hsch] [host Hhost] Hdec.
  destruct (pop_getitem _ _ _ Ht) as (h' & Hpop & _).
  exists h'. split; [done|].
  unfold bypass_csp_for_form_redirects. step_unfold. simpl.
  rewrite Hc, Hh. simpl. rewrite Ht. step_unfold. simpl.
  rewrite bool_decide_false.
  2:{ rewrite take1_in. intros Hx. apply Hext. unfold internal_target. tauto. }
  rewrite Hsch. step_unfold. simpl. rewrite Hhost. step_unfold. simpl.
  destruct (Py.startswith target _) eqn:Hs.
  { exfalso. apply Hext. right. right. by exists rq, scheme, host. }
  rewrite Hpop. step_unfold. simpl. by rewrite Hdec.
Qed.

(** *** The other steps *)

(** X15. The country attached to a request is never the empty text: it is
    None when the Cf-Ipcountry header is missing or empty and the decoded
    header otherwise; a header that does not decode makes the step fail.
    The transport envelope is attached as given. *)
Theorem country_attached (env : Value) (request : Request.t) :
  (Headers.getitem "Cf-Ipcountry" (Request.headers request) = None →
   attach_environ_to_request env request = Return (mkAttached None env)) ∧
  (∀ v s, Headers.getitem "Cf-Ipcountry" (Request.headers request) = Some v →
          decode_utf8 v = Some s →
          attach_environ_to_request env request
          = Return (mkAttached (if Py.truthy s then Some s else None) env)) ∧
  (∀ v, Headers.getitem "Cf-Ipcountry" (Request.headers request) = Some v →
        decode_utf8 v = None →
        attach_environ_to_request env request = Raise UnicodeDecodeError) ∧
  (∀ a, attach_environ_to_request env request = Return a →
        country a ≠ Some "" ∧ environ a = env).
Proof.
  unfold attach_environ_to_request, Headers.getitem, Headers.get,
    Mapping.getitem, Mapping.get.
  destruct (Headers.fields (Request.headers request) !! "Cf-Ipcountry")
    as [vs|]; simpl; [destruct (last vs) as [v|]; simpl|].
  - split; [discriminate|].
    split; [intros v' s [= <-] Hs; by rewrite Hs|].
    split; [intros v' [= <-] Hs; by rewrite Hs|].
    intros a. destruct (decode_utf8 v) as [s|]; [|discriminate].
    intros [= <-]. simpl. split; [by destruct s|done].
  - rewrite decode_utf8_empty. simpl.
    split; [done|]. split; [discriminate|]. split; [discriminate|].
    by intros a [= <-].
  - rewrite decode_utf8_empty. simpl.
    split; [done|]. split; [discriminate|]. split; [discriminate|].
    by intros a [= <-].
Qed.

(** X16. The response object created for a request is a new object: its
    address was not in use, the objects already in the store are untouched,
    and the state is given that address under "response". The object is a
    plain 200 response without headers or cookies that refers back to the
    request and the site. *)
Theorem response_object_is_new (request website : Value) (h : Heap) :
  ∃ l r,
    create_response_object request website h
    = (<[l := r]> h, Return {[ "response" := VResponse l ]}) ∧
    h !! l = None ∧
    (∀ l' r', h !! l' = Some r' → <[l := r]> h !! l' = Some r') ∧
    Response.code r = 200 ∧
    Response.headers r = Some Headers.empty ∧
    Response.attrs r !! "request" = Some request ∧
    Response.attrs r !! "website" = Some website.
Proof.
  unfold create_response_object. step_unfold. simpl.
  eexists _, _. split; [reflexivity|].
  assert (Hfresh : h !! fresh (dom h) = None).
  { apply not_elem_of_dom, is_fresh. }
  split; [exact Hfresh|]. split.
  - intros l' r' Hl'. rewrite lookup_insert_ne; [done|]. congruence.
  - repeat split.
Qed.

(** X17. After the output step the state has an "output" entry: the one it
    had, or None when it had none. The other entries are untouched, and
    running the step again changes nothing. *)
Theorem output_defaults_to_None (state : State) :
  set_output_to_None state !! "output" = Some (default VNone (state !! "output")) ∧
  (∀ k, k ≠ "output" → set_output_to_None state !! k = state !! k) ∧
  set_output_to_None (set_output_to_None state) = set_output_to_None state.
Proof.
  unfold set_output_to_None.
  destruct (state !! "output") as [v|] eqn:Ho; simpl.
  - rewrite Ho. by repeat split.
  - rewrite lookup_insert_eq. repeat split.
    intros k Hk. by rewrite lookup_insert_ne.
Qed.

(** X18. Without a save_as parameter in the query string, or with an empty
    one, the content-disposition step returns and leaves the response
    alone. *)
Theorem no_save_as_no_header (qs : Request.Querystring) (response : Response.t) :
  Mapping.getitem "save_as" (Request.qs_params qs) = None ∨
  Mapping.getitem "save_as" (Request.qs_params qs) = Some "" →
  add_content_disposition_header qs response = (response, Return tt).
Proof.
  intros [Hq|Hq]; unfold add_content_disposition_header; by rewrite Hq.
Qed.

(** X19. With a non-empty save_as parameter whose quoted form is 7-bit
    text, the content-disposition step returns with Content-Disposition set
    to the single value "attachment; filename*=UTF-8''" followed by the
    quoted name, whatever values the header had; the other headers, the
    cookies, the code and the body are untouched. When the quoted form is
    not 7-bit text the step fails and the response is untouched. *)
Theorem save_as_sets_header (qs : Request.Querystring) (response : Response.t)
    (h : Headers.t) (save_as quoted : string) :
  Mapping.getitem "save_as" (Request.qs_params qs) = Some save_as →
  save_as ≠ "" →
  urlquote save_as = Some quoted →
  Response.headers response = Some h →
  (Py.is_ascii quoted = false →
   add_content_disposition_header qs response
   = (response, Raise UnicodeEncodeError)) ∧
  (Py.is_ascii quoted = true →
   ∃ h',
     add_content_disposition_header qs response
     = (Response.set_headers (Some h') response, Return tt) ∧
     Headers.all "Content-Disposition" h'
     = ["attachment; filename*=UTF-8''" +:+ quoted] ∧
     (∀ k, k ≠ "Content-Disposition" → Headers.all k h' = Headers.all k h) ∧
     Headers.cookie h' = Headers.cookie h).
Proof.
  intros Hq Hne Hquote Hh.
  unfold add_content_disposition_header. rewrite Hq, truthy_nonempty by done.
  unfold set_header, Py.encode_ascii. step_unfold. simpl. rewrite Hquote. simpl.
  split; intros Ha; rewrite Ha; simpl; [done|].
  rewrite Hh. simpl. eexists. split; [reflexivity|].
  unfold Headers.all, Headers.setitem, Headers.map_fields, Mapping.all,
    Mapping.setitem. simpl.
  split; [by rewrite lookup_insert_eq|]. split; [|done].
  intros k Hk. by rewrite lookup_insert_ne.
Qed.

(** X20. The fallback for an unhandled exception always gives code 500
    with the exception entry cleared, on the response it was given (a new
    one when it was given none) with its headers as they were. The body is
    the fixed apology unless the site shows tracebacks, and the masking
    step leaves the result as it is. *)
Theorem fatal_fallback_is_500 (website : Website) (exception : Value)
    (response : option Response.t) :
  let u := return_500_for_exception website exception response in
  upd_exception u = VNone ∧
  Response.code (upd_response u) = 500 ∧
  Response.headers (upd_response u)
  = Response.headers (default Response.new response) ∧
  (show_tracebacks website = false → Response.body (upd_response u) = apology) ∧
  (show_tracebacks website = true → Response.body (upd_response u) = format_exc) ∧
  overwrite_status_code_of_gateway_errors (upd_response u)
  = (upd_response u, Return tt).
Proof.
  unfold return_500_for_exception, overwrite_status_code_of_gateway_errors.
  step_unfold. destruct (show_tracebacks website); simpl; repeat split; done.
Qed.

(** *** Canonical redirects under the content security policy step *)

Lemma startswith_app_same (a x y : string) :
  Py.startswith (a +:+ x) (a +:+ y) = Py.startswith x y.
Proof.
  unfold Py.startswith. induction a as [|c a IH]; [done|].
  rewrite !app_String. simpl. by destruct (ascii_dec c c).
Qed.

Lemma startswith_app_char (s x : string) (c : ascii) :
  s ≠ "" → Py.startswith (s +:+ x) (String c "") = Py.startswith s (String c "").
Proof.
  intros Hs. destruct s as [|d s]; [done|]. rewrite app_String.
  unfold Py.startswith. simpl. destruct (ascii_dec c d); [|done].
  transitivity true; [by destruct (s +:+ x)|by destruct s].
Qed.

Lemma startswith_split (s p : string) :
  Py.startswith s p = true → ∃ t, s = p +:+ t.
Proof.
  unfold Py.startswith. revert s. induction p as [|c p IH]; intros s Hp.
  - by exists s.
  - destruct s as [|d s]; [discriminate|]. simpl in Hp.
    destruct (ascii_dec c d) as [->|]; [|discriminate].
    destruct (IH s Hp) as [t ->]. by exists t.
Qed.

Lemma app_eq_split (a b x y : string) :
  a +:+ x = b +:+ y →
  (∃ m, a = b +:+ m ∧ y = m +:+ x) ∨ (∃ m, b = a +:+ m ∧ x = m +:+ y).
Proof.
  revert b. induction a as [|c a IH]; intros b Heq.
  - right. by exists b.
  - destruct b as [|d b].
    + left. by exists (String c a).
    + rewrite !app_String in Heq. injection Heq as -> Heq.
      destruct (IH b Heq) as [[m [-> ->]]|[m [-> ->]]].
      * left. by exists m.
      * right. by exists m.
Qed.

Lemma app_empty_r (s : string) : s +:+ "" = s.
Proof. induction s as [|c s IH]; [done|]. rewrite app_String. by f_equal. Qed.

(** Two names without a slash that are followed by one are equal as soon
    as one, with its slash, starts the other with what follows it. *)
Lemma slash_delimits (a b rest : string) :
  (∀ u v, a ≠ u +:+ "/" +:+ v) →
  (∀ u v, b ≠ u +:+ "/" +:+ v) →
  Py.startswith (b +:+ "/" +:+ rest) (a +:+ "/") = true →
  a = b.
Proof.
  intros Ha Hb Hp. apply startswith_split in Hp as [t Ht].
  rewrite app_assoc_str in Ht. symmetry in Ht.
  apply app_eq_split in Ht as [[m [-> Hm]]|[m [-> Hm]]].
  - destruct m as [|c m]; [apply app_empty_r|].
    rewrite app_String in Hm. injection Hm as <- _.
    exfalso. by apply (Ha b m).
  - destruct m as [|c m]; [symmetry; apply app_empty_r|].
    rewrite app_String in Hm. injection Hm as <- _.
    exfalso. by apply (Hb a m).
Qed.

Lemma getitem_setitem (k v : string) (h : Headers.t) :
  Headers.getitem k (Headers.setitem k v h) = Some v.
Proof.
  unfold Headers.getitem, Headers.setitem, Headers.map_fields, Mapping.getitem,
    Mapping.setitem. simpl. by rewrite lookup_insert_eq.
Qed.

Lemma pop_setitem (k v : string) (h : Headers.t) :
  Headers.pop k (Headers.setitem k v h)
  = Some (v, Headers.mk (delete k (Headers.fields h)) (Headers.cookie h)).
Proof.
  unfold Headers.pop, Headers.setitem, Headers.map_fields, Mapping.pop,
    Mapping.setitem. simpl. rewrite lookup_insert_eq. simpl.
  by rewrite delete_insert_eq.
Qed.

(** Canonicalization never changes the Host header. *)
Lemma canonize_keeps_host_header (website : Website) (request : Request.t) :
  Headers.getitem "Host" (Request.headers (fst (canonize website request)))
  = Headers.getitem "Host" (Request.headers request).
Proof.
  unfold canonize. step_unfold. simpl.
  destruct (Headers.getitem "Host" (Request.headers request)) as [raw_host|] eqn:Hh;
    simpl; [|done].
  destruct (decode_host_cases raw_host) as [[host ->] | [-> _]]; simpl; [|done].
  destruct (Py.startswith _ "/callbacks/").
  { destruct (Py.str_last _) as [c|]; simpl; [|done].
    destruct (Py.eq c (Py.Str "/")); simpl; [|done].
    destruct (urlsplit _) as [[[[[scheme netloc] path] query] fragment]|]; simpl;
      [|done].
    destruct (Py.bytes_last path) as [c'|]; simpl; [|done].
    destruct (Py.eq c' (Py.Str "/")); simpl; done. }
  destruct (Py.truthy (canonical_host website)); simpl.
  - destruct (bool_decide (_ = canonical_host website)); simpl.
    + destruct (bool_decide _); simpl; done.
    + destruct (Py.endswith _ _); simpl.
      * destruct (bool_decide (_ ∈ locales website)); simpl.
        -- destruct (idna_encode _) as [enc|]; simpl; [|done].
           unfold Headers.getitem, Headers.setitem, Headers.map_fields,
             Mapping.getitem, Mapping.setitem in *.
           destruct (bool_decide _); simpl; by rewrite lookup_insert_ne.
        -- rewrite orb_true_r. done.
      * rewrite orb_true_r. done.
  - destruct (bool_decide _); simpl; done.
Qed.

(** X21. The redirect that canonicalization raises for a bad scheme alone
    counts as internal in the CSP step, which passes it unchanged as a 302:
    the host is the one of the Host header, the canonical scheme is 7-bit
    text, the redirect target starts its path with a slash and is stored in
    Location as it is. *)
Theorem scheme_redirect_stays_302 (state : State) (website : Website)
    (request : Request.t) (raw_host : string) :
  Headers.getitem "Host" (Request.headers request) = Some raw_host →
  idna_decode raw_host = Decoded raw_host →
  Py.startswith (Request.raw (Request.path request)) "/callbacks/" = false →
  (∀ l, l ∈ locales website → is_Some (idna_encode l)) →
  bad_scheme website request = true →
  bad_host website raw_host = false →
  Py.is_ascii (canonical_scheme website) = true →
  Py.startswith (path_and_query request) "/" = true →
  let url := canonical_scheme website +:+ "://" +:+ raw_host
             +:+ path_and_query request in
  encode_url url = url →
  ∃ request' r,
    canonize website request = (request', Raise (ResponseExc r)) ∧
    Response.code r = 302 ∧
    bypass_csp_for_form_redirects state website (Some request') r
    = (r, Return tt).
Proof.
  intros Hh Hdec Hcb Henc Hs Hb Hascii Hpq url Hurl.
  assert (Hhost : decode_host raw_host = Return raw_host)
    by (unfold decode_host; by rewrite Hdec).
  destruct (canonize_redirects website request raw_host raw_host Hh Hhost Hcb Henc)
    as (request' & Hrun & _).
  { by rewrite Hs. }
  rewrite Hb in Hrun. fold url in Hrun.
  pose proof (canonize_keeps_host_header website request) as Hkeep.
  rewrite Hrun, Hh in Hkeep. simpl in Hkeep.
  eexists _, _. split; [exact Hrun|]. split; [reflexivity|].
  unfold bypass_csp_for_form_redirects, redirect_response. step_unfold. simpl.
  rewrite getitem_setitem, Hurl. step_unfold. simpl.
  destruct (bool_decide (Py.take 1 url ∈ ["/"; "."])); [done|].
  unfold Py.encode_ascii. rewrite Hascii. step_unfold. simpl.
  rewrite Hkeep. step_unfold. simpl.
  assert (Hint : Py.startswith url
                   (canonical_scheme website +:+ "://" +:+ raw_host +:+ "/") = true).
  { unfold url. rewrite !startswith_app_same. exact Hpq. }
  by rewrite Hint.
Qed.

(** X22. The redirect that canonicalization raises for a bad host does not
    count as internal in the CSP step: it names the canonical host, not the
    host of the request. The step turns it into a 200 response without
    Location on which the refresh page for the target is rendered, still
    carrying the Cache-Control header of the redirect. The canonical scheme
    is 7-bit text starting with neither "/" nor ".", neither host contains
    a slash, and the target, 7-bit text too, starts its path with a slash
    and is stored in Location as it is. The host is what the Host header
    decodes to, the empty text after a UnicodeDecodeError. *)
Theorem host_redirect_becomes_refresh (state : State) (website : Website)
    (request : Request.t) (raw_host host : string) :
  Headers.getitem "Host" (Request.headers request) = Some raw_host →
  decode_host raw_host = Return host →
  Py.startswith (Request.raw (Request.path request)) "/callbacks/" = false →
  (∀ l, l ∈ locales website → is_Some (idna_encode l)) →
  bad_host website host = true →
  raw_host ≠ canonical_host website →
  (∀ u v, raw_host ≠ u +:+ "/" +:+ v) →
  (∀ u v, canonical_host website ≠ u +:+ "/" +:+ v) →
  Py.is_ascii (canonical_scheme website) = true →
  canonical_scheme website ≠ "" →
  Py.startswith (canonical_scheme website) "/" = false →
  Py.startswith (canonical_scheme website) "." = false →
  Py.startswith (path_and_query request) "/" = true →
  let url := canonical_scheme website +:+ "://" +:+ canonical_host website
             +:+ path_and_query request in
  encode_url url = url →
  Py.is_ascii url = true →
  ∃ request' r h',
    canonize website request = (request', Raise (ResponseExc r)) ∧
    Response.code r = 302 ∧
    Headers.getitem "Location" h' = None ∧
    Headers.all "Cache-Control" h' = ["public, max-age=86400"] ∧
    bypass_csp_for_form_redirects state website (Some request') r
    = except_Response (refresh state 0 url)
        (Response.set_headers (Some h') (Response.set_code 200 r)).
Proof.
  intros Hh Hdec Hcb Henc Hb Hne Hrs Hcs Hascii Hsne Hs1 Hs2 Hpq url Hurl Hua.
  destruct (canonize_redirects website request raw_host host Hh Hdec Hcb Henc)
    as (request' & Hrun & _).
  { rewrite Hb. apply orb_true_r. }
  rewrite Hb in Hrun. fold url in Hrun.
  pose proof (canonize_keeps_host_header website request) as Hkeep.
  rewrite Hrun, Hh in Hkeep. simpl in Hkeep.
  set (cc := Headers.setitem "Cache-Control" "public, max-age=86400" Headers.empty).
  exists request', (redirect_response url),
    (Headers.mk (delete "Location" (Headers.fields cc)) (Headers.cookie cc)).
  split; [exact Hrun|]. split; [reflexivity|].
  split; [reflexivity|]. split; [reflexivity|].
  assert (Htake : Py.take 1 url ∉ ["/"; "."]).
  { rewrite take1_in. unfold url.
    rewrite !startswith_app_char by done. rewrite Hs1, Hs2. by intros [|]. }
  assert (Hext : Py.startswith url
                   (canonical_scheme website +:+ "://" +:+ raw_host +:+ "/") = false).
  { destruct (Py.startswith url _) eqn:Hp; [|done]. exfalso. apply Hne.
    unfold url in Hp. rewrite !startswith_app_same in Hp.
    apply startswith_split in Hpq as [rest Hrest]. rewrite Hrest in Hp.
    by apply (slash_delimits raw_host (canonical_host website) rest). }
  unfold bypass_csp_for_form_redirects, redirect_response. step_unfold. simpl.
  fold cc. rewrite getitem_setitem, Hurl. step_unfold. simpl.
  destruct (bool_decide_reflect (Py.take 1 url ∈ ["/"; "."])) as [Hin|_];
    [by destruct Htake|].
  unfold Py.encode_ascii. rewrite Hascii. step_unfold. simpl.
  rewrite Hkeep. step_unfold. simpl. rewrite Hext.
  rewrite pop_setitem. step_unfold. simpl.
  unfold Py.decode_ascii. rewrite Hua. step_unfold. simpl.
  reflexivity.
Qed.

End MoreProperties.

(** ** The further properties on the sample site *)

Lemma good_origin_not_redirected_witness :
  ∃ request',
    canonize Sample.website Sample.canonical_request = (request', Return tt) ∧
    Request.hostname request' = Some "example.com" ∧
    Request.line request' = Request.line Sample.canonical_request ∧
    (∀ k, k ≠ "Accept-Language" →
          Headers.all k (Request.headers request')
          = Headers.all k (Request.headers Sample.canonical_request)).
Proof.
  assert (Hhost : Headers.getitem "Host" (Request.headers Sample.canonical_request)
                  = Some "example.com") by reflexivity.
  assert (Hdec : decode_host "example.com" = Return "example.com") by reflexivity.
  assert (Hcb : Py.startswith (Request.raw (Request.path Sample.canonical_request))
                  "/callbacks/" = false) by reflexivity.
  assert (Hs : bad_scheme Sample.website Sample.canonical_request = false)
    by reflexivity.
  assert (Hb : bad_host Sample.website "example.com" = false) by reflexivity.
  exact (good_origin_not_redirected Sample.website Sample.canonical_request
           "example.com" "example.com" Hhost Hdec Hcb sample_locales_encode Hs Hb).
Defined.

Lemma callbacks_never_redirected_witness :
  ((∀ r, snd (canonize Sample.website Sample.foreign_callback)
         ≠ Raise (ResponseExc r)) ∧
   Request.headers (fst (canonize Sample.website Sample.foreign_callback))
   = Request.headers Sample.foreign_callback ∧
   Request.hostname (fst (canonize Sample.website Sample.foreign_callback))
   = Some "evil.example") ∧
  canonize Sample.website Sample.malformed_host_callback
  = (Sample.malformed_host_callback, Raise UnicodeError).
Proof.
  assert (Hhost : Headers.getitem "Host" (Request.headers Sample.foreign_callback)
                  = Some "evil.example") by reflexivity.
  assert (Hcb : Py.startswith (Request.raw (Request.path Sample.foreign_callback))
                  "/callbacks/" = true) by reflexivity.
  assert (Hdec : decode_host "evil.example" = Return "evil.example") by reflexivity.
  assert (Hhost' : Headers.getitem "Host" (Request.headers Sample.malformed_host_callback)
                   = Some "xn--a") by reflexivity.
  assert (Hcb' : Py.startswith (Request.raw (Request.path Sample.malformed_host_callback))
                   "/callbacks/" = true) by reflexivity.
  assert (Hcodec : idna_decode "xn--a" = CodecError) by reflexivity.
  destruct (callbacks_never_redirected Sample.website Sample.foreign_callback
              "evil.example" Hhost Hcb) as (Hno & Hkeep & Hname & _).
  destruct (callbacks_never_redirected Sample.website Sample.malformed_host_callback
              "xn--a" Hhost' Hcb') as (_ & _ & _ & Hstop).
  split; [|exact (Hstop Hcodec)].
  split; [exact Hno|]. split; [exact Hkeep|]. exact (Hname _ Hdec).
Defined.

Lemma callback_without_slash_kept_witness :
  canonize Sample.website Sample.foreign_callback
  = (Request.set_hostname "evil.example" Sample.foreign_callback, Return tt).
Proof.
  assert (Hhost : Headers.getitem "Host" (Request.headers Sample.foreign_callback)
                  = Some "evil.example") by reflexivity.
  assert (Hdec : decode_host "evil.example" = Return "evil.example") by reflexivity.
  assert (Hcb : Py.startswith (Request.raw (Request.path Sample.foreign_callback))
                  "/callbacks/" = true) by reflexivity.
  assert (Hlast : Py.last_char (Request.raw (Request.path Sample.foreign_callback))
                  = Some "e"%char) by reflexivity.
  assert (Hc : "e"%char ≠ "/"%char) by discriminate.
  exact (callback_without_slash_kept Sample.website Sample.foreign_callback
           "evil.example" "evil.example" "e" Hhost Hdec Hcb Hlast Hc).
Defined.

Lemma callback_sanity_check_fails_witness :
  canonize Sample.website Sample.callback_dir
  = (Request.set_hostname "example.com" Sample.callback_dir, Raise AssertionError).
Proof.
  assert (Hhost : Headers.getitem "Host" (Request.headers Sample.callback_dir)
                  = Some "example.com") by reflexivity.
  assert (Hdec : decode_host "example.com" = Return "example.com") by reflexivity.
  assert (Hcb : Py.startswith (Request.raw (Request.path Sample.callback_dir))
                  "/callbacks/" = true) by reflexivity.
  assert (Hlast : Py.last_char (Request.raw (Request.path Sample.callback_dir))
                  = Some "/"%char) by reflexivity.
  assert (Hsplit :
    urlsplit (Request.uri_bytes (Request.uri (Request.line Sample.callback_dir)))
    = Some (Py.Bytes "", Py.Bytes "", Py.Bytes "/callbacks/paypal/",
            Py.Bytes "", Py.Bytes "")) by reflexivity.
  assert (Hpath : Py.octets (Py.Bytes "/callbacks/paypal/") ≠ "") by discriminate.
  destruct (callback_sanity_check_fails Sample.website Sample.callback_dir
              "example.com" "example.com" Hhost Hdec Hcb Hlast)
    as (_ & _ & Hassert & _).
  exact (Hassert _ _ _ _ _ Hsplit Hpath).
Defined.

Lemma undecodable_host_redirected_witness :
  canonize Sample.website Sample.odd_host_request
  = (Request.set_hostname "" Sample.odd_host_request,
     Raise (ResponseExc (redirect_response "https://example.com/about"))).
Proof.
  assert (Hhost : Headers.getitem "Host" (Request.headers Sample.odd_host_request)
                  = Some (String (ascii_of_nat 233) "xample.com")) by reflexivity.
  assert (Hdec : idna_decode (String (ascii_of_nat 233) "xample.com") = DecodeError)
    by reflexivity.
  assert (Hcb : Py.startswith (Request.raw (Request.path Sample.odd_host_request))
                  "/callbacks/" = false) by reflexivity.
  assert (Hch : canonical_host Sample.website ≠ "") by discriminate.
  exact (undecodable_host_redirected Sample.website Sample.odd_host_request
           _ Hhost Hdec Hcb Hch).
Defined.

Lemma redirect_authority_trusted_witness :
  ∃ authority,
    redirect_response "https://example.com/"
    = redirect_response
        (canonical_scheme Sample.website +:+ "://" +:+ authority
         +:+ path_and_query Sample.foreign_post) ∧
    (authority = canonical_host Sample.website ∨
     Request.hostname (Request.set_hostname "evil.example" Sample.foreign_post)
     = Some authority ∧
     bad_host Sample.website authority = false) ∧
    Py.startswith (Request.raw (Request.path Sample.foreign_post)) "/callbacks/"
    = false.
Proof.
  assert (Hrun : canonize Sample.website Sample.foreign_post
                 = (Request.set_hostname "evil.example" Sample.foreign_post,
                    Raise (ResponseExc (redirect_response "https://example.com/"))))
    by reflexivity.
  exact (redirect_authority_trusted Sample.website Sample.foreign_post _ _ Hrun).
Defined.

Lemma canonize_keeps_identity_witness :
  (Request.method (fst (canonize Sample.website Sample.callback_slash)) = "POST" ∧
   Request.path (fst (canonize Sample.website Sample.callback_slash))
   = Request.path Sample.callback_slash ∧
   Request.source (fst (canonize Sample.website Sample.callback_slash))
   = "203.0.113.7" ∧
   Request.bypasses_proxy (fst (canonize Sample.website Sample.callback_slash))
   = false ∧
   Request.line (fst (canonize Sample.website Sample.callback_slash))
   = Request.line Sample.callback_slash ∧
   Request.hostname (fst (canonize Sample.website Sample.callback_slash))
   = Some "example.com") ∧
  fst (canonize Sample.website Sample.malformed_host_request)
  = Sample.malformed_host_request.
Proof.
  assert (Hhost : Headers.getitem "Host" (Request.headers Sample.callback_slash)
                  = Some "example.com") by reflexivity.
  assert (Hdec : decode_host "example.com" = Return "example.com") by reflexivity.
  assert (Hhost' : Headers.getitem "Host" (Request.headers Sample.malformed_host_request)
                   = Some "xn--a") by reflexivity.
  assert (Hcodec : idna_decode "xn--a" = CodecError) by reflexivity.
  destruct (canonize_keeps_identity Sample.website Sample.callback_slash
              "example.com" Hhost) as (Hm & Hp & Hs & Hb & Hl & Hn & _).
  destruct (canonize_keeps_identity Sample.website Sample.malformed_host_request
              "xn--a" Hhost') as (_ & _ & _ & _ & _ & _ & Hsame).
  split; [|exact (Hsame Hcodec)].
  exact (conj Hm (conj Hp (conj Hs (conj Hb (conj Hl (Hn _ Hdec)))))).
Defined.

Lemma bad_origin_redirected_witness :
  (∃ request' response headers,
     canonize Sample.website Sample.foreign_get
     = (request', Raise (ResponseExc response)) ∧
     Request.hostname request' = Some "evil.example" ∧
     Response.code response = 302 ∧
     Response.headers response = Some headers ∧
     Headers.all "Location" headers = ["https://example.com/explore?page=2"] ∧
     Headers.all "Cache-Control" headers = ["public, max-age=86400"]) ∧
  (∃ request' response headers,
     canonize Sample.website Sample.foreign_post
     = (request', Raise (ResponseExc response)) ∧
     Request.hostname request' = Some "evil.example" ∧
     Response.code response = 302 ∧
     Response.headers response = Some headers ∧
     Headers.all "Location" headers = ["https://example.com/"] ∧
     Headers.all "Cache-Control" headers = ["public, max-age=86400"]) ∧
  (∃ request' response headers,
     canonize Sample.website Sample.fr_http_request
     = (request', Raise (ResponseExc response)) ∧
     Request.hostname request' = Some "fr.example.com" ∧
     Response.code response = 302 ∧
     Response.headers response = Some headers ∧
     Headers.all "Location" headers = ["https://fr.example.com/about?x=1"] ∧
     Headers.all "Cache-Control" headers = ["public, max-age=86400"]).
Proof.
  assert (Hdec : decode_host "evil.example" = Return "evil.example") by reflexivity.
  assert (Hdec' : decode_host "fr.example.com" = Return "fr.example.com")
    by reflexivity.
  assert (Hhost : Headers.getitem "Host" (Request.headers Sample.foreign_get)
                  = Some "evil.example") by reflexivity.
  assert (Hcb : Py.startswith (Request.raw (Request.path Sample.foreign_get))
                  "/callbacks/" = false) by reflexivity.
  assert (Hbad : bad_scheme Sample.website Sample.foreign_get = true ∨
                 bad_host Sample.website "evil.example" = true)
    by (right; reflexivity).
  assert (Hhost1 : Headers.getitem "Host" (Request.headers Sample.foreign_post)
                   = Some "evil.example") by reflexivity.
  assert (Hcb1 : Py.startswith (Request.raw (Request.path Sample.foreign_post))
                   "/callbacks/" = false) by reflexivity.
  assert (Hbad1 : bad_scheme Sample.website Sample.foreign_post = true ∨
                  bad_host Sample.website "evil.example" = true)
    by (right; reflexivity).
  assert (Hhost2 : Headers.getitem "Host" (Request.headers Sample.fr_http_request)
                   = Some "fr.example.com") by reflexivity.
  assert (Hcb2 : Py.startswith (Request.raw (Request.path Sample.fr_http_request))
                   "/callbacks/" = false) by reflexivity.
  assert (Hbad2 : bad_scheme Sample.website Sample.fr_http_request = true ∨
                  bad_host Sample.website "fr.example.com" = true)
    by (left; reflexivity).
  split; [|split].
  - exact (bad_origin_redirected Sample.website Sample.foreign_get
             "evil.example" "evil.example" Hhost Hdec Hcb sample_locales_encode Hbad).
  - exact (bad_origin_redirected Sample.website Sample.foreign_post
             "evil.example" "evil.example" Hhost1 Hdec Hcb1 sample_locales_encode Hbad1).
  - exact (bad_origin_redirected Sample.website Sample.fr_http_request
             "fr.example.com" "fr.example.com" Hhost2 Hdec' Hcb2
             sample_locales_encode Hbad2).
Defined.

Lemma merged_response_takes_over_witness :
  ∃ h' r' e',
    merge_exception_into_response (VResponse 2%positive) (Some 1%positive)
      (Sample.state, Sample.heap)
    = ((<["exception" := VNone]> Sample.state, h'), Return tt) ∧
    h' !! 1%positive = Some r' ∧
    h' !! 2%positive = Some e' ∧
    Response.code r' = 302 ∧
    Response.body r' = "Please log in" ∧
    Response.whence_raised r' = Some (Some "state_chain.py", Some 31) ∧
    Response.headers e' = None.
Proof.
  assert (Hne : (2 ≠ 1)%positive) by discriminate.
  assert (Hlazy : Response.cls Sample.raised_response = Response.Lazy →
                  is_Some (Response.lazy_body Sample.raised_response))
    by (intros _; eexists; reflexivity).
  destruct (merged_response_takes_over Sample.state Sample.heap
              2%positive 1%positive
              Sample.raised_response Sample.held_response
              (default Headers.empty (Response.headers Sample.raised_response))
              (default Headers.empty (Response.headers Sample.held_response))
              Hne eq_refl eq_refl eq_refl eq_refl Hlazy)
    as (h' & r' & e' & Hrun & Hr' & He' & Hcode & Hbody & Hwhence & _ & _ & Hhe & _).
  exists h', r', e'. repeat split; assumption.
Defined.

Lemma timeout_text_any_case_witness :
  turn_socket_error_into_50X (λ s, s) Sample.wrapped_timeout None
  = Some (mkUpdate (Response.set_body socket_error_message
                      (Response.set_code 504 Response.new)) VNone).
Proof.
  exact (timeout_text_any_case (λ s, s) Sample.wrapped_timeout
           (mkExn false true true "Read Timeout" NoCause) None
           "Read " "Timeout" "" eq_refl eq_refl eq_refl).
Defined.

Lemma socket_error_response_shape_witness :
  Response.code
    (Response.set_body socket_error_message (Response.set_code 502 Response.new))
  = 504 ∨
  Response.code
    (Response.set_body socket_error_message (Response.set_code 502 Response.new))
  = 502.
Proof.
  assert (Hrun : turn_socket_error_into_50X (λ s, s) Sample.wrapped_refusal None
                 = Some (mkUpdate (Response.set_body socket_error_message
                                     (Response.set_code 502 Response.new)) VNone))
    by reflexivity.
  exact (proj1 (proj2 (socket_error_response_shape (λ s, s) Sample.wrapped_refusal
                         None _ Hrun))).
Defined.

Lemma socket_error_shown_as_500_witness :
  Response.code
    (fst (overwrite_status_code_of_gateway_errors
            (Response.set_body socket_error_message
               (Response.set_code 502 Response.new)))) = 500.
Proof.
  assert (Hrun : turn_socket_error_into_50X (λ s, s) Sample.wrapped_refusal None
                 = Some (mkUpdate (Response.set_body socket_error_message
                                     (Response.set_code 502 Response.new)) VNone))
    by reflexivity.
  destruct (socket_error_shown_as_500 (λ s, s) Sample.wrapped_refusal None _ Hrun)
    as [Hmask _].
  simpl in Hmask. rewrite Hmask. reflexivity.
Defined.

Lemma redirect_without_location_witness :
  bypass_csp_for_form_redirects ∅ Sample.website (Some Sample.form_post)
    (Sample.response_with 302 [])
  = (Sample.response_with 302 [], Raise (MissingKey "Location")).
Proof.
  exact (redirect_without_location ∅ Sample.website Sample.form_post
           (Sample.response_with 302 []) Headers.empty eq_refl eq_refl eq_refl).
Defined.

Lemma redirect_check_needs_host_witness :
  bypass_csp_for_form_redirects ∅ Sample.website (Some Sample.hostless_request)
    Sample.internal_redirect
  = (Sample.internal_redirect, Return tt) ∧
  bypass_csp_for_form_redirects ∅ Sample.website (Some Sample.hostless_request)
    Sample.external_redirect
  = (Sample.external_redirect, Raise (MissingKey "Host")).
Proof.
  split.
  - apply (proj1 (redirect_check_needs_host ∅ Sample.website
                    Sample.hostless_request Sample.internal_redirect
                    (Sample.headers_of [("Location", "/local/path")])
                    "/local/path" "https" eq_refl eq_refl eq_refl eq_refl eq_refl)).
    left. reflexivity.
  - apply (proj2 (redirect_check_needs_host ∅ Sample.website
                    Sample.hostless_request Sample.external_redirect
                    (Sample.headers_of [("Location", "https://evil.example/x")])
                    "https://evil.example/x" "https"
                    eq_refl eq_refl eq_refl eq_refl eq_refl)); reflexivity.
Defined.

Lemma redirect_target_not_ascii_witness :
  ∃ h',
    Headers.pop "Location" (default Headers.empty (Response.headers Sample.odd_redirect))
    = Some (String (ascii_of_nat 233) "vil.example", h') ∧
    bypass_csp_for_form_redirects ∅ Sample.website (Some Sample.form_post)
      Sample.odd_redirect
    = (Response.set_headers (Some h') (Response.set_code 200 Sample.odd_redirect),
       Raise UnicodeDecodeError).
Proof.
  apply (redirect_target_not_ascii ∅ Sample.website Sample.form_post
           Sample.odd_redirect
           (default Headers.empty (Response.headers Sample.odd_redirect))
           (String (ascii_of_nat 233) "vil.example") eq_refl eq_refl eq_refl).
  - intros [Hs|[Hs|(rq & sch & host & [= <-] & Hsch & Hhost & Hs)]];
      [discriminate Hs|discriminate Hs|].
    vm_compute in Hsch. injection Hsch as <-.
    vm_compute in Hhost. injection Hhost as <-.
    discriminate Hs.
  - eexists. reflexivity.
  - eexists. reflexivity.
  - reflexivity.
Defined.

Lemma country_attached_witness :
  attach_environ_to_request (VOpaque "environ") Sample.french_visitor
  = Return (mkAttached (Some "FR") (VOpaque "environ")) ∧
  attach_environ_to_request (VOpaque "environ") Sample.form_post
  = Return (mkAttached None (VOpaque "environ")).
Proof.
  split.
  - exact (proj1 (proj2 (country_attached (VOpaque "environ") Sample.french_visitor))
             "FR" "FR" eq_refl eq_refl).
  - exact (proj1 (country_attached (VOpaque "environ") Sample.form_post) eq_refl).
Defined.

Lemma output_defaults_to_None_witness :
  set_output_to_None Sample.state !! "output" = Some VNone ∧
  set_output_to_None Sample.state !! "response" = Some (VResponse 1%positive).
Proof.
  destruct (output_defaults_to_None Sample.state) as (Hout & Hother & _).
  split; [exact Hout|].
  rewrite Hother by discriminate. reflexivity.
Defined.

Lemma no_save_as_no_header_witness :
  add_content_disposition_header (Sample.querystring "" []) Response.new
  = (Response.new, Return tt) ∧
  add_content_disposition_header
    (Sample.querystring "save_as=" [("save_as", "")]) Response.new
  = (Response.new, Return tt).
Proof.
  split.
  - apply (no_save_as_no_header (Sample.querystring "" []) Response.new).
    left. reflexivity.
  - apply (no_save_as_no_header
             (Sample.querystring "save_as=" [("save_as", "")]) Response.new).
    right. reflexivity.
Defined.

Lemma save_as_sets_header_witness :
  ∃ h',
    add_content_disposition_header
      (Sample.querystring "save_as=my+report.csv" [("save_as", "my report.csv")])
      Sample.held_response
    = (Response.set_headers (Some h') Sample.held_response, Return tt) ∧
    Headers.all "Content-Disposition" h'
    = ["attachment; filename*=UTF-8''my%20report.csv"] ∧
    Headers.all "Vary" h' = ["Cookie"].
Proof.
  assert (Hne : "my report.csv" ≠ "") by discriminate.
  assert (Hquote : urlquote "my report.csv" = Some "my%20report.csv")
    by reflexivity.
  destruct (proj2 (save_as_sets_header
                     (Sample.querystring "save_as=my+report.csv"
                        [("save_as", "my report.csv")])
                     Sample.held_response
                     (default Headers.empty (Response.headers Sample.held_response))
                     "my report.csv" "my%20report.csv"
                     eq_refl Hne Hquote eq_refl) eq_refl)
    as (h' & Hrun & Hcd & Hother & _).
  exists h'. split; [exact Hrun|]. split; [exact Hcd|].
  rewrite Hother by discriminate. reflexivity.
Defined.

Lemma fatal_fallback_is_500_witness :
  Response.body
    (upd_response (return_500_for_exception Sample.website
                     (VExn Sample.wrapped_refusal) None))
  = apology.
Proof.
  apply (fatal_fallback_is_500 Sample.website (VExn Sample.wrapped_refusal) None).
  reflexivity.
Defined.

Lemma sample_host_without_slash (host : string) :
  Py.contains "/" host = false → ∀ u v, host ≠ u +:+ "/" +:+ v.
Proof.
  intros Hc u v ->. by rewrite contains_app in Hc.
Qed.

Lemma scheme_redirect_stays_302_witness :
  ∃ request' r,
    canonize Sample.website Sample.fr_http_request
    = (request', Raise (ResponseExc r)) ∧
    Response.code r = 302 ∧
    bypass_csp_for_form_redirects ∅ Sample.website (Some request') r
    = (r, Return tt).
Proof.
  assert (Hhost : Headers.getitem "Host" (Request.headers Sample.fr_http_request)
                  = Some "fr.example.com") by reflexivity.
  assert (Hcb : Py.startswith (Request.raw (Request.path Sample.fr_http_request))
                  "/callbacks/" = false) by reflexivity.
  exact (scheme_redirect_stays_302 ∅ Sample.website Sample.fr_http_request
           "fr.example.com" Hhost eq_refl Hcb sample_locales_encode
           eq_refl eq_refl eq_refl eq_refl eq_refl).
Defined.

Lemma host_redirect_becomes_refresh_witness :
  ∃ request' r h',
    canonize Sample.website Sample.foreign_post
    = (request', Raise (ResponseExc r)) ∧
    Response.code r = 302 ∧
    Headers.getitem "Location" h' = None ∧
    Headers.all "Cache-Control" h' = ["public, max-age=86400"] ∧
    bypass_csp_for_form_redirects ∅ Sample.website (Some request') r
    = (Response.set_body "refresh: https://example.com/"
         (Response.set_headers (Some h') (Response.set_code 200 r)),
       Return tt).
Proof.
  assert (Hhost : Headers.getitem "Host" (Request.headers Sample.foreign_post)
                  = Some "evil.example") by reflexivity.
  assert (Hcb : Py.startswith (Request.raw (Request.path Sample.foreign_post))
                  "/callbacks/" = false) by reflexivity.
  assert (Hne : "evil.example" ≠ canonical_host Sample.website) by discriminate.
  assert (Hsne : canonical_scheme Sample.website ≠ "") by discriminate.
  assert (Hdec : decode_host "evil.example" = Return "evil.example") by reflexivity.
  destruct (host_redirect_becomes_refresh ∅ Sample.website Sample.foreign_post
              "evil.example" "evil.example" Hhost Hdec Hcb sample_locales_encode
              eq_refl Hne
              (sample_host_without_slash "evil.example" eq_refl)
              (sample_host_without_slash "example.com" eq_refl)
              eq_refl Hsne eq_refl eq_refl eq_refl eq_refl eq_refl)
    as (request' & r & h' & Hrun & Hcode & Hloc & Hcc & Hstep).
  exists request', r, h'. repeat split; assumption.
Defined.

Lemma response_object_is_new_witness :
  ∃ l r,
    create_response_object (VOpaque "request") (VOpaque "website") Sample.heap
    = (<[l := r]> Sample.heap, Return {[ "response" := VResponse l ]}) ∧
    Sample.heap !! l = None ∧
    <[l := r]> Sample.heap !! 1%positive = Some Sample.held_response ∧
    Response.code r = 200.
Proof.
  destruct (response_object_is_new (VOpaque "request") (VOpaque "website")
              Sample.heap)
    as (l & r & Hrun & Hnew & Hkeep & Hcode & _).
  exists l, r. split; [exact Hrun|]. split; [exact Hnew|].
  split; [|exact Hcode]. apply Hkeep. reflexivity.
Defined.

Lemma caused_socket_502_witness :
  turn_socket_error_into_50X (λ s, s) Sample.wrapped_refusal
    (Some Sample.held_response)
  = Some (mkUpdate (Response.set_body socket_error_message
                      (Response.set_code 502 Sample.held_response)) VNone).
Proof.
  apply (caused_socket_502 (λ s, s) Sample.wrapped_refusal
           (mkExn false true true "Connection refused" NoCause)
           (Some Sample.held_response) eq_refl eq_refl eq_refl).
  left. reflexivity.
Defined.
